(** * paccmann_chemistry.models: stack-GRU encoder/decoder and TeacherVAE

    Shallow embedding of [paccmann_chemistry/models.py].  Tensors are
    modelled the way torch stores them: a list of sizes and the elements
    in row-major order.  Python exceptions are an error result, the torch
    random generator is a stream of draws with a cursor, and the StackGRU
    base class, the linear layers and the samplers, which live outside
    this file of the repository, are fields of records.  The file system
    and the serialisation under [torch.save] and [torch.load] are classes
    whose operations can raise. *)

From stdpp Require Import gmap strings list.

Set Default Proof Using "Type".

(** ** Python exceptions *)

Inductive py_error : Type :=
  | TypeError
  | IndexError
  | RuntimeError
  | OSError
  | EOFError
  | UnpicklingError.

Inductive result (A : Type) : Type :=
  | Ok (a : A)
  | Err (e : py_error).
Arguments Ok {A} a.
Arguments Err {A} e.

#[global] Instance result_ret : MRet result := λ A a, Ok a.
#[global] Instance result_bind : MBind result := λ A B f m,
  match m with Ok a => f a | Err e => Err e end.
#[global] Instance result_fmap : FMap result := λ A B f m,
  match m with Ok a => Ok (f a) | Err e => Err e end.

Definition of_option {A} (e : py_error) (o : option A) : result A :=
  match o with Some a => Ok a | None => Err e end.

Definition is_Ok {A} (r : result A) : Prop := ∃ a, r = Ok a.

(** ** Tensors: sizes and row-major storage *)

Record tensor (A : Type) : Type := Tensor { shape : list nat; data : list A }.
Arguments Tensor {A} shape data.
Arguments shape {A} t.
Arguments data {A} t.

Definition numel (s : list nat) : nat := foldr Nat.mul 1 s.

(** A tensor is well formed when its storage has one element per index. *)
Definition wf {A} (t : tensor A) : Prop := length (data t) = numel (shape t).

(** [chunks size count l]: the first [count] consecutive blocks of [size]
    elements of [l]. *)
Fixpoint chunks {A} (size count : nat) (l : list A) : list (list A) :=
  match count with
  | 0 => []
  | S c => take size l :: chunks size c (drop size l)
  end.

(** Multi-index of the flat position [k] in a tensor of sizes [s], and back. *)
Fixpoint unravel (s : list nat) (k : nat) : list nat :=
  match s with
  | [] => []
  | _ :: ds => k / numel ds :: unravel ds (k `mod` numel ds)
  end.

Fixpoint ravel (s idx : list nat) : nat :=
  match s, idx with
  | _ :: ds, i :: idx' => i * numel ds + ravel ds idx'
  | _, _ => 0
  end.

(** [gather l idxs]: the elements of [l] at the positions [idxs]. *)
Definition gather {A} (l : list A) (idxs : list nat) : option (list A) :=
  mapM (λ i, l !! i) idxs.

(** *** len(t), t.shape[i], iteration over the first dimension *)

Definition len {A} (t : tensor A) : result nat :=
  of_option TypeError (head (shape t)).

Definition shape_at {A} (t : tensor A) (i : nat) : result nat :=
  of_option IndexError (shape t !! i).

(** [for x in t]: the sub-tensors along dimension 0; a 0-d tensor is not
    iterable. *)
Definition iter {A} (t : tensor A) : result (list (tensor A)) :=
  match shape t with
  | [] => Err TypeError
  | d :: ds => Ok (Tensor ds <$> chunks (numel ds) d (data t))
  end.

(** *** Indexing and slicing along the first dimension *)

(** [t[i]] for an integer [i], negative indices counting from the end. *)
Definition getitem {A} (i : Z) (t : tensor A) : result (tensor A) :=
  match shape t with
  | [] => Err IndexError
  | d :: ds =>
      let j := (if decide (i < 0) then i + Z.of_nat d else i)%Z in
      if decide (0 ≤ j < Z.of_nat d)%Z
      then Ok (Tensor ds (take (numel ds) (drop (Z.to_nat j * numel ds) (data t))))
      else Err IndexError
  end.

(** Python's normalisation of a slice bound against a length [d]. *)
Definition slice_bound (d : nat) (dflt : nat) (b : option Z) : nat :=
  match b with
  | None => dflt
  | Some z =>
      let z' := (if decide (z < 0) then z + Z.of_nat d else z)%Z in
      Z.to_nat (Z.max 0 (Z.min z' (Z.of_nat d)))
  end.

(** [t[start:stop]] along the first dimension. *)
Definition slice {A} (start stop : option Z) (t : tensor A) : result (tensor A) :=
  match shape t with
  | [] => Err IndexError
  | d :: ds =>
      let lo := slice_bound d 0 start in
      let hi := slice_bound d d stop in
      let n := hi - lo in
      Ok (Tensor (n :: ds) (take (n * numel ds) (drop (lo * numel ds) (data t))))
  end.

(** *** view *)

(** The sizes passed to [view]; [None] is the inferred size [-1].
    [infer_size dims n] resolves them against [n] elements.  Storage is
    kept in row-major order by every operation here, so the strides that
    torch also checks are not tracked; the one view of a transposed
    tensor in this module only inserts a dimension of size 1, which
    torch accepts on any strides. *)
Definition infer_size (dims : list (option nat)) (n : nat) : result (list nat) :=
  let known := numel (omap id dims) in
  match length dims - length (omap id dims) with
  | 0 => if decide (known = n) then Ok (omap id dims) else Err RuntimeError
  | 1 =>
      if decide (known ≠ 0 ∧ n `mod` known = 0)
      then Ok (default (n / known) <$> dims)
      else Err RuntimeError
  | _ => Err RuntimeError
  end.

Definition view {A} (dims : list (option nat)) (t : tensor A) : result (tensor A) :=
  s ← infer_size dims (length (data t));
  mret (Tensor s (data t)).

(** *** repeat *)

Fixpoint tile {A} (reps s : list nat) (l : list A) : list A :=
  match reps, s with
  | r :: rs, d :: ds =>
      mjoin (replicate r (mjoin (tile rs ds <$> chunks (numel ds) d l)))
  | _, _ => l
  end.

(** [t.repeat(reps...)]: the sizes of [t] are padded with leading ones up
    to the number of repeats; fewer repeats than dimensions is an error. *)
Definition repeat {A} (reps : list nat) (t : tensor A) : result (tensor A) :=
  if decide (length (shape t) ≤ length reps) then
    let s := replicate (length reps - length (shape t)) 1 ++ shape t in
    Ok (Tensor (zip_with Nat.mul reps s) (tile reps s (data t)))
  else Err RuntimeError.

(** *** transpose *)

Definition swap (i j : nat) (l : list nat) : list nat :=
  <[i := l !!! j]> (<[j := l !!! i]> l).

Definition transpose {A} (i j : nat) (t : tensor A) : result (tensor A) :=
  let s := shape t in
  if decide (i < length s ∧ j < length s) then
    let s' := swap i j s in
    d ← of_option RuntimeError
           (gather (data t) ((λ k, ravel s (swap i j (unravel s' k))) <$> seq 0 (numel s')));
    mret (Tensor s' d)
  else Err IndexError.

(** *** squeeze, unsqueeze, cat *)

Definition squeeze {A} (t : tensor A) : tensor A :=
  Tensor (filter (λ d, d ≠ 1) (shape t)) (data t).

Definition unsqueeze {A} (k : nat) (t : tensor A) : result (tensor A) :=
  if decide (k ≤ length (shape t))
  then Ok (Tensor (take k (shape t) ++ 1 :: drop k (shape t)) (data t))
  else Err IndexError.

(** [torch.cat((a, b), dim)]: the sizes must agree except along [dim]. *)
Definition cat {A} (a b : tensor A) (dim : nat) : result (tensor A) :=
  match shape a !! dim, shape b !! dim with
  | Some da, Some db =>
      if decide (length (shape a) = length (shape b)
                 ∧ take dim (shape a) = take dim (shape b)
                 ∧ drop (S dim) (shape a) = drop (S dim) (shape b))
      then
        let outer := numel (take dim (shape a)) in
        let inner := numel (drop (S dim) (shape a)) in
        Ok (Tensor (<[dim := da + db]> (shape a))
              (mjoin (zip_with app (chunks (da * inner) outer (data a))
                                   (chunks (db * inner) outer (data b)))))
      else Err RuntimeError
  | _, _ => Err IndexError
  end.

(** *** Element-wise operations *)

Definition tmap {A B} (f : A → B) (t : tensor A) : tensor B :=
  Tensor (shape t) (f <$> data t).

(** Broadcast of two size lists, both given last dimension first. *)
Fixpoint bshape (ra rb : list nat) : option (list nat) :=
  match ra, rb with
  | [], r | r, [] => Some r
  | a :: ra', b :: rb' =>
      r ← bshape ra' rb';
      if decide (a = b) then Some (a :: r)
      else if decide (a = 1) then Some (b :: r)
      else if decide (b = 1) then Some (a :: r)
      else None
  end.

(** Index into an operand of (reversed) sizes [rs] for the (reversed)
    index [ridx] of the broadcast result: size-1 dimensions are read at 0. *)
Definition bindex (rs ridx : list nat) : list nat :=
  zip_with (λ d i, if decide (d = 1) then 0 else i) rs ridx.

Definition bpos (s out : list nat) (k : nat) : nat :=
  ravel s (reverse (bindex (reverse s) (reverse (unravel out k)))).

(** [f] applied element-wise with torch's broadcasting. *)
Definition map2 {A B C} (f : A → B → C) (a : tensor A) (b : tensor B)
    : result (tensor C) :=
  match bshape (reverse (shape a)) (reverse (shape b)) with
  | None => Err RuntimeError
  | Some r =>
      let out := reverse r in
      xs ← of_option RuntimeError (gather (data a) (bpos (shape a) out <$> seq 0 (numel out)));
      ys ← of_option RuntimeError (gather (data b) (bpos (shape b) out <$> seq 0 (numel out)));
      mret (Tensor out (zip_with f xs ys))
  end.

(** The in-place variant ([add_]): the result must have the sizes of the
    receiver. *)
Definition map2_ {A B} (f : A → B → A) (a : tensor A) (b : tensor B)
    : result (tensor A) :=
  r ← map2 f a b;
  if decide (shape r = shape a) then Ok r else Err RuntimeError.

(** [bool(t)]: only a one-element tensor has a truth value. *)
Definition tensor_bool (t : tensor bool) : result bool :=
  match data t with
  | [b] => Ok b
  | _ => Err RuntimeError
  end.

(** ** The random generator

    [torch.randn_like] and [torch.multinomial] read torch's global
    generator.  Its state is a stream of draws and the number of draws
    taken so far. *)

Record generator (N : Type) : Type := Generator { stream : nat → N; cursor : nat }.
Arguments Generator {N} stream cursor.
Arguments stream {N} g.
Arguments cursor {N} g.

(** Computations that may raise and may draw from the generator. *)
Definition M (N A : Type) : Type := generator N → result (A * generator N).

#[global] Instance M_ret {N} : MRet (M N) := λ A a g, Ok (a, g).
#[global] Instance M_bind {N} : MBind (M N) := λ A B f m g,
  match m g with Ok (a, g') => f a g' | Err e => Err e end.

Definition lift {N A} (r : result A) : M N A := λ g,
  match r with Ok a => Ok (a, g) | Err e => Err e end.

Definition draw {N} : M N N := λ g,
  Ok (stream g (cursor g), Generator (stream g) (S (cursor g))).

(** ** External collaborators *)

(** Floating-point scalars with the operations this module applies. *)
Class Float (F : Type) : Type := {
  fadd : F → F → F;
  fmul : F → F → F;
  fdiv : F → F → F;
  fexp : F → F;
  fhalf : F;
  of_int : Z → F
}.

(** The samplers, as functions of one draw of the generator. *)
Class Sampler (F N : Type) : Type := {
  randn_like : N → tensor F → tensor F;
  multinomial : N → tensor F → nat → result (tensor Z)
}.

(** [stack_rnn.StackGRU]: the hyperparameters this module reads, the
    forward pass [self(input, hidden, stack)], the initial states and the
    loss criterion.  The forward pass is taken as a function: it returns
    for every input and draws nothing from the generator. *)
Record StackGRU (F : Type) : Type := {
  n_layers : nat;
  n_directions : nat;
  batch_size : nat;
  hidden_size : nat;
  output_size : nat;
  forward : tensor Z → tensor F → tensor F → tensor F * tensor F * tensor F;
  init_hidden : tensor F;
  init_stack : option nat → tensor F;
  criterion : tensor F → tensor Z → F
}.
Arguments n_layers {F} _.
Arguments n_directions {F} _.
Arguments batch_size {F} _.
Arguments hidden_size {F} _.
Arguments output_size {F} _.
Arguments forward {F} _ _ _ _.
Arguments init_hidden {F} _.
Arguments init_stack {F} _ _.
Arguments criterion {F} _ _ _.

Record StackGRUEncoder (F : Type) : Type := {
  encoder_gru :> StackGRU F;
  hidden_to_mu : tensor F → tensor F;
  hidden_to_logvar : tensor F → tensor F
}.
Arguments encoder_gru {F} _.
Arguments hidden_to_mu {F} _ _.
Arguments hidden_to_logvar {F} _ _.

Record StackGRUDecoder (F : Type) : Type := {
  decoder_gru :> StackGRU F;
  latent_to_hidden : tensor F → tensor F
}.
Arguments decoder_gru {F} _.
Arguments latent_to_hidden {F} _ _.

(** The value of [loss]: the Python integer it starts from, or the
    0-d tensor it becomes after the first [+=]. *)
Inductive loss_value (F : Type) : Type :=
  | LossInt (z : Z)
  | LossTensor (x : F).
Arguments LossInt {F} z.
Arguments LossTensor {F} x.

(** Python iterables: a list has a length, a generator has none. *)
Inductive iterable (X : Type) : Type :=
  | PyList (items : list X)
  | PyGenerator (pending : list X).
Arguments PyList {X} items.
Arguments PyGenerator {X} pending.

Definition py_len {X} (it : iterable X) : result nat :=
  match it with
  | PyList items => Ok (length items)
  | PyGenerator _ => Err TypeError
  end.

(** [itertools.takewhile] with a predicate that may raise. *)
Fixpoint takewhile {X} (p : X → result bool) (l : list X) : result (list X) :=
  match l with
  | [] => Ok []
  | x :: l' =>
      b ← p x;
      if b : bool then (x ::.) <$> takewhile p l' else Ok []
  end.

(** [pandas.DataFrame(rows, columns=...)] of two columns. *)
Record DataFrame (X : Type) : Type := {
  columns : list string;
  rows : list (nat * X)
}.
Arguments Build_DataFrame {X} columns rows.
Arguments columns {X} _.
Arguments rows {X} _.

Section models.
Context {F N : Type} `{!Float F, !Sampler F N}.

(** *** StackGRUEncoder *)

Definition encoder_train_step (self : StackGRUEncoder F) (input_seq : tensor Z)
    : result (tensor F * tensor F) :=
  let hidden := init_hidden self in
  let stack := init_stack self None in
  entries ← iter input_seq;
  let '(hidden, stack) :=
    foldl (λ '(hidden, stack) input_entry,
             let '(output, hidden, stack) := forward self input_entry hidden stack in
             (hidden, stack))
          (hidden, stack) entries in
  hidden ← view [Some (n_layers self); Some (n_directions self);
                 Some (batch_size self); Some (hidden_size self)] hidden;
  hidden ← getitem (-1) hidden;
  hidden ← view [Some (batch_size self);
                 Some (hidden_size self * n_directions self)] hidden;
  let mu := hidden_to_mu self hidden in
  let logvar := hidden_to_logvar self hidden in
  mret (mu, logvar).

(** *** StackGRUDecoder *)

(** [loss += x] *)
Definition iadd (loss : loss_value F) (x : F) : loss_value F :=
  match loss with
  | LossInt z => LossTensor (fadd x (of_int z))
  | LossTensor l => LossTensor (fadd l x)
  end.

Definition decoder_train_step (self : StackGRUDecoder F)
    (latent_z : tensor F) (input_seq target_seq : tensor Z)
    : result (loss_value F) :=
  let hidden := latent_to_hidden self latent_z in
  let stack := init_stack self None in
  let loss := LossInt 0 in
  inputs ← iter input_seq;
  targets ← iter target_seq;
  let '(loss, hidden, stack) :=
    foldl (λ '(loss, hidden, stack) '(input_entry, target_entry),
             let '(output, hidden, stack) := forward self input_entry hidden stack in
             (iadd loss (criterion self output (squeeze target_entry)), hidden, stack))
          (loss, hidden, stack) (zip inputs targets) in
  mret loss.

(** One pass through the body of the sampling loop, up to the new
    [input_token]; the sampled [top_idx] is returned with the state.
    Moving a tensor between devices, [.data], [.double()] and the trip
    through numpy keep sizes and values and are left out. *)
Definition sample_step (self : StackGRUDecoder F) (temperature : F) (batch_size : nat)
    (st : tensor Z * tensor Z * tensor F * tensor F)
    : M N (tensor Z * (tensor Z * tensor Z * tensor F * tensor F)) :=
  let '(generated_seq, input_token, hidden, stack) := st in
  let '(output, hidden, stack) := forward self input_token hidden stack in
  output ← lift (view [Some batch_size; None] output);
  let output_dist := tmap fexp (tmap (λ x, fdiv x temperature) output) in
  z ← draw;
  top_idx ← lift (multinomial z output_dist 1);
  column ← lift (unsqueeze 2 top_idx);
  generated_seq ← lift (cat generated_seq column 2);
  input_token ← lift (view [Some 1; None] top_idx);
  mret (top_idx, (generated_seq, input_token, hidden, stack)).

(** [batch_size == 1 and top_idx == end_token], as a truth value. *)
Definition end_reached (batch_size : nat) (top_idx end_token : tensor Z) : result bool :=
  if decide (batch_size = 1)
  then map2 Z.eqb top_idx end_token ≫= tensor_bool
  else Ok false.

(** [for _ in range(generate_len): ...; if ...: break] *)
Fixpoint generation_loop (self : StackGRUDecoder F) (end_token : tensor Z)
    (temperature : F) (batch_size : nat) (generate_len : nat)
    (st : tensor Z * tensor Z * tensor F * tensor F) : M N (tensor Z) :=
  match generate_len with
  | 0 => mret st.1.1.1
  | S n =>
      '(top_idx, st') ← sample_step self temperature batch_size st;
      stop ← lift (end_reached batch_size top_idx end_token);
      if stop : bool then mret st'.1.1.1
      else generation_loop self end_token temperature batch_size n st'
  end.

Definition generate_from_latent (self : StackGRUDecoder F)
    (latent_z : tensor F) (prime_input end_token : tensor Z)
    (generate_len : nat) (temperature : F) : M N (tensor Z) :=
  let n_layers := n_layers self in
  let n_directions := n_directions self in
  latent_z ← lift (repeat [n_layers * n_directions; 1; 1] latent_z);
  let hidden := latent_to_hidden self latent_z in
  batch_size ← lift (shape_at hidden 1);
  let stack := init_stack self (Some batch_size) in
  prime_input ← lift (repeat [batch_size; 1] prime_input);
  transposed ← lift (transpose 1 0 prime_input);
  n ← lift (len prime_input);
  prime_input ← lift (view [None; Some 1; Some n] transposed);
  generated_seq ← lift (transpose 0 2 prime_input);
  primes ← lift (slice None (Some (-1)%Z) prime_input ≫= iter);
  let '(hidden, stack) :=
    foldl (λ '(hidden, stack) prime_entry,
             let '(_, hidden, stack) := forward self prime_entry hidden stack in
             (hidden, stack))
          (hidden, stack) primes in
  input_token ← lift (getitem (-1) prime_input);
  generation_loop self end_token temperature batch_size generate_len
    (generated_seq, input_token, hidden, stack).
End models.

(** ** TeacherVAE *)

(** [torch.save] and [torch.load] through their serialisation of a state
    dictionary into the contents [B] of a file; reading contents that are
    no serialised object raises ([EOFError] on an empty file,
    [UnpicklingError] or [RuntimeError] on other contents). *)
Class Pickle (F B : Type) : Type := {
  dumps : gmap string (tensor F) → B;
  loads : B → result (gmap string (tensor F))
}.

(** The file system under [torch.save] and [torch.load]: writing the
    contents of the file a path names and reading them. Both can raise:
    a path in a directory that does not exist, a path that names a
    directory, a file without permission. What a path names is the file
    system's own matter. *)
Class FileSystem (FS B : Type) : Type := {
  write_file : FS → string → B → result FS;
  read_file : FS → string → result B
}.


(** A TeacherVAE is its two sub-modules as a function of the registered
    parameters, and the current value of these parameters. *)
Record TeacherVAE (F : Type) : Type := {
  modules : gmap string (tensor F) → StackGRUEncoder F * StackGRUDecoder F;
  parameters : gmap string (tensor F)
}.
Arguments Build_TeacherVAE {F} modules parameters.
Arguments modules {F} _ _.
Arguments parameters {F} _.

Definition encoder {F} (self : TeacherVAE F) : StackGRUEncoder F :=
  (modules self (parameters self)).1.
Definition decoder {F} (self : TeacherVAE F) : StackGRUDecoder F :=
  (modules self (parameters self)).2.

Definition state_dict {F} (self : TeacherVAE F) : gmap string (tensor F) :=
  parameters self.


(** [torch.tensor(list_of_0d_tensors)] *)
Definition torch_tensor {A} (l : list (tensor A)) : tensor A :=
  Tensor [length l] (l ≫= data).

Section vae.
Context {F N B FS : Type} `{!Float F, !Sampler F N, !Pickle F B, !FileSystem FS B}.

Definition encode (self : TeacherVAE F) (input_seq : tensor Z)
    : result (tensor F * tensor F) :=
  '(mu, logvar) ← encoder_train_step (encoder self) input_seq;
  mret (mu, logvar).

Definition reparameterize (self : TeacherVAE F) (mu logvar : tensor F)
    : M N (tensor F) :=
  let std := tmap fexp (tmap (fmul fhalf) logvar) in
  z ← draw;
  let eps := randn_like z std in
  scaled ← lift (map2 fmul eps std);
  lift (map2_ fadd scaled mu).

Definition decode (self : TeacherVAE F) (latent_z : tensor F)
    (input_seq target_seq : tensor Z) : result (loss_value F) :=
  let n_layers := n_layers (decoder self) in
  let n_directions := n_directions (decoder self) in
  latent_z ← repeat [n_layers * n_directions; 1; 1] latent_z;
  decoder_loss ← decoder_train_step (decoder self) latent_z input_seq target_seq;
  mret decoder_loss.

(** [TeacherVAE.forward]; [forward] is the cell's. *)
Definition vae_forward (self : TeacherVAE F) (input_seq decoder_seq target_seq : tensor Z)
    : M N (loss_value F * tensor F * tensor F) :=
  '(mu, logvar) ← lift (encode self input_seq);
  latent_z ← reparameterize self mu logvar;
  decoder_loss ← lift (decode self latent_z decoder_seq target_seq);
  mret (decoder_loss, mu, logvar).

(** The object [takewhile(lambda x: x != end_token, molecule.squeeze()[1:])]
    as the items it yields when it is consumed. *)
Definition strip_special (end_token molecule : tensor Z) : result (list (tensor Z)) :=
  tail_ ← slice (Some 1%Z) None (squeeze molecule);
  items ← iter tail_;
  takewhile (λ x, map2 (λ a b, negb (a =? b)%Z) x end_token ≫= tensor_bool) items.

(** [molecule_gen] is a generator expression: it iterates over
    [generated_batch] from its creation and strips a molecule when it
    is advanced.  It is one object shared by [molecule_iter] and by the
    [zip] that the data frame consumes: what the frame has taken is no
    longer yielded by the iterator. *)
Definition generate (self : TeacherVAE F) (latent_z : tensor F)
    (prime_input end_token : tensor Z) (generate_len : nat) (temperature : F)
    : M N (iterable (result (tensor Z)) * DataFrame (result (list (tensor Z)))) :=
  generated_batch ←
    generate_from_latent (decoder self) latent_z prime_input end_token
      generate_len temperature;
  molecules ← lift (A := list (tensor Z)) (iter generated_batch);
  let pending := fmap (M := list) (strip_special end_token) molecules in
  let molecule_gen := PyGenerator pending in
  n ← lift (py_len molecule_gen);
  let number := seq 0 n in
  let mol_dict := zip number pending in
  let mol_ds := Build_DataFrame ["molecule_number"; "smiles"] mol_dict in
  let molecule_iter :=
    PyGenerator (fmap (M := list) (fmap torch_tensor) (drop (length mol_dict) pending)) in
  mret (molecule_iter, mol_ds).

(** [torch.save(self.state_dict(), path)]: the file system after the call,
    or the exception of a path that cannot be written. *)
Definition save_model (self : TeacherVAE F) (path : string) (fs : FS) : result FS :=
  write_file fs path (dumps (state_dict self)).

End vae.

(** ** Reference definitions

    What the documentation of the module says its functions compute,
    written independently of the loops above. *)

Section reference.
Context {F N : Type} `{!Float F, !Sampler F N}.

(** The outputs of the cell unrolled over [inputs]. *)
Fixpoint unroll (self : StackGRU F) (hidden stack : tensor F) (inputs : list (tensor Z))
    : list (tensor F) :=
  match inputs with
  | [] => []
  | x :: inputs' =>
      let '(output, hidden, stack) := forward self x hidden stack in
      output :: unroll self hidden stack inputs'
  end.

(** The hidden state and stack after the cell has read [inputs]. *)
Fixpoint final_state (self : StackGRU F) (hidden stack : tensor F) (inputs : list (tensor Z))
    : tensor F * tensor F :=
  match inputs with
  | [] => (hidden, stack)
  | x :: inputs' =>
      let '(_, hidden, stack) := forward self x hidden stack in
      final_state self hidden stack inputs'
  end.

(** The sum of the per-step losses, accumulated from the integer 0. *)
Definition total_loss (terms : list F) : loss_value F :=
  foldl iadd (LossInt 0) terms.

(** The sum of the per-step losses written with the addition of [Float]:
    the integer 0 when there is no step, otherwise the first term plus 0
    and then each further term added on the right. *)
Definition loss_sum (terms : list F) : loss_value F :=
  match terms with
  | [] => LossInt 0
  | x :: rest => LossTensor (foldl fadd (fadd x (of_int 0)) rest)
  end.

(** For a hidden state of sizes [n_layers * n_directions, batch, hidden],
    read as [layer, direction, batch, hidden]: the last layer with, for
    every batch element, its directions side by side. *)
Definition directions_concatenated (self : StackGRU F) (hidden : tensor F)
    : option (tensor F) :=
  let s := [n_layers self; n_directions self; batch_size self; hidden_size self] in
  d ← gather (data hidden)
        (b ← seq 0 (batch_size self);
         d ← seq 0 (n_directions self);
         k ← seq 0 (hidden_size self);
         [ravel s [n_layers self - 1; d; b; k]]);
  Some (Tensor [batch_size self; hidden_size self * n_directions self] d).

(** [toks] is a chain of sampled tokens: each one is drawn from the
    distribution [exp(output / temperature)] of the step that reads the
    previous one, starting from [input_token] and draw number [c]. *)
Inductive sampled_chain (self : StackGRUDecoder F) (temperature : F)
    (batch_size : nat) (noise : nat → N)
    : nat → tensor Z → tensor F → tensor F → list (tensor Z) → Prop :=
  | chain_nil c input_token hidden stack :
      sampled_chain self temperature batch_size noise c input_token hidden stack []
  | chain_cons c input_token hidden stack output hidden' stack' rows_
               top_idx input_token' toks :
      forward self input_token hidden stack = (output, hidden', stack') →
      view [Some batch_size; None] output = Ok rows_ →
      multinomial (noise c) (tmap fexp (tmap (λ x, fdiv x temperature) rows_)) 1
        = Ok top_idx →
      view [Some 1; None] top_idx = Ok input_token' →
      sampled_chain self temperature batch_size noise (S c)
        input_token' hidden' stack' toks →
      sampled_chain self temperature batch_size noise c
        input_token hidden stack (top_idx :: toks).

(** The sequences [generated_seq] extended by one column per token. *)
Fixpoint append_columns (generated_seq : tensor Z) (toks : list (tensor Z))
    : result (tensor Z) :=
  match toks with
  | [] => Ok generated_seq
  | top_idx :: toks' =>
      column ← unsqueeze 2 top_idx;
      generated_seq ← cat generated_seq column 2;
      append_columns generated_seq toks'
  end.

(** The loop over [n] steps stopped where [end_token] was first
    sampled: no token before the last one is [end_token], and when
    fewer than [n] tokens were sampled the last one is. *)
Definition stops_at_end (end_token : tensor Z) (n : nat) (toks : list (tensor Z)) : Prop :=
  (∀ i t, toks !! i = Some t → S i < length toks → data t ≠ data end_token) ∧
  (length toks < n → ∃ t, last toks = Some t ∧ data t = data end_token).

(** What this module relies on from the decoder's cell: on a row of
    [b] tokens it returns [b] rows of [output_size] scores. *)
Definition cell_rows (self : StackGRU F) : Prop :=
  0 < output_size self ∧
  ∀ input_token hidden stack b,
    shape input_token = [1; b] →
    length (data (forward self input_token hidden stack).1.1) = b * output_size self.

(** A linear layer acts on the last dimension only. *)
Definition linear_layer (f : tensor F → tensor F) : Prop :=
  ∀ t s d, shape t = s ++ [d] → ∃ d', shape (f t) = s ++ [d'].

(** [torch.multinomial(dist, 1)] on [b] rows of positive length gives
    one index per row. *)
Definition multinomial_rows : Prop :=
  ∀ (z : N) (dist : tensor F) b v,
    shape dist = [b; v] → 0 < v → wf dist →
    ∃ top_idx, multinomial z dist 1 = Ok top_idx
               ∧ shape top_idx = [b; 1] ∧ wf top_idx.

(** The documented sizes of the arguments of [generate_from_latent] for
    [B] latent vectors and [S L] priming tokens, and the behaviour of
    the collaborators on which generation relies. *)
Definition generation_inputs (self : StackGRUDecoder F) (latent_z : tensor F)
    (prime_input end_token : tensor Z) (B L : nat) : Prop :=
  cell_rows self ∧ multinomial_rows ∧ linear_layer (latent_to_hidden self)
  ∧ (∃ d, shape latent_z = [1; B; d]) ∧ wf latent_z ∧ 0 < B
  ∧ (shape prime_input = [S L] ∨ shape prime_input = [1; S L]) ∧ wf prime_input
  ∧ (B = 1 → shape end_token = [1] ∧ wf end_token).

(** The state after the priming tokens but the last have been read,
    from the hidden state projected from the repeated latent vector. *)
Definition primed_state (self : StackGRUDecoder F) (latent_z : tensor F)
    (prime_input : tensor Z) (B L : nat) : tensor F * tensor F :=
  let k := n_layers self * n_directions self in
  let hidden :=
    latent_to_hidden self
      (Tensor (k * 1 :: drop 1 (shape latent_z)) (mjoin (replicate k (data latent_z)))) in
  final_state self hidden (init_stack self (Some B))
    ((λ y, Tensor [1; B] (replicate B y)) <$> take L (data prime_input)).

(** [torch.randn_like] keeps the sizes of its argument. *)
Definition randn_like_shape : Prop :=
  ∀ (z : N) (t : tensor F),
    wf t → shape (randn_like z t) = shape t ∧ wf (randn_like z t).
End reference.

(** ** A small instance for evaluating the model

    Integer scalars stand in for floats; the sampler returns the draw
    itself as the sampled index of every row. *)

#[local] Instance toy_float : Float Z :=
  {| fadd := Z.add; fmul := Z.mul; fdiv := Z.div; fexp := λ x, (2 ^ x)%Z;
     fhalf := 1%Z; of_int := id |}.

#[local] Instance toy_sampler : Sampler Z Z :=
  {| randn_like := λ z t, Tensor (shape t) (replicate (length (data t)) z);
     multinomial := λ z dist n,
       match shape dist with
       | [b; v] =>
           if decide (0 < v) then Ok (Tensor [b; n] (replicate (b * n) z))
           else Err RuntimeError
       | _ => Err RuntimeError
       end |}.

#[local] Instance toy_pickle : Pickle Z (gmap string (tensor Z)) :=
  {| dumps := id; loads := Ok |}.

(** Files by their path, every path writable but the root directory. *)
#[local] Instance toy_file_system
    : FileSystem (gmap string (gmap string (tensor Z))) (gmap string (tensor Z)) :=
  {| write_file := λ fs path blob,
       if decide (path = "/") then Err OSError else Ok (<[path := blob]> fs);
     read_file := λ fs path, of_option OSError (fs !! path) |}.

(** A cell over [b] sequences with one layer, two directions and hidden
    size 1: every step adds one to the hidden state and scores three
    symbols with 0. *)
Definition toy_gru (b : nat) : StackGRU Z :=
  {| n_layers := 1; n_directions := 2; batch_size := b; hidden_size := 1;
     output_size := 3;
     forward := λ input_token hidden stack,
       (Tensor [numel (shape input_token); 3]
               (replicate (numel (shape input_token) * 3) 0%Z),
        tmap Z.succ hidden, stack);
     init_hidden := Tensor [2; b; 1] (Z.of_nat <$> seq 0 (2 * b));
     init_stack := λ _, Tensor [0] [];
     criterion := λ output target, 1%Z |}.

Definition toy_encoder (b : nat) : StackGRUEncoder Z :=
  {| encoder_gru := toy_gru b;
     hidden_to_mu := λ t, t;
     hidden_to_logvar := λ t, tmap Z.opp t |}.

Definition toy_decoder (b : nat) : StackGRUDecoder Z :=
  {| decoder_gru := toy_gru b; latent_to_hidden := λ t, t |}.

Definition toy_vae (b : nat) : TeacherVAE Z :=
  {| modules := λ _, (toy_encoder b, toy_decoder b);
     parameters := {[ "decoder.latent_to_hidden.bias" := Tensor [1] [0%Z] ]} |}.

Definition toy_generator : generator Z := Generator (λ k, Z.of_nat (10 + k)) 0.

(** ** Further assumptions and instances *)

(** A linear layer of [inp] input and [out] output features, on the
    tensors whose last dimension is [inp]. *)
Definition linear_to {F} (f : tensor F → tensor F) (inp out : nat) : Prop :=
  ∀ t s, shape t = s ++ [inp] → wf t → shape (f t) = s ++ [out] ∧ wf (f t).

(** The cell of [toy_gru b] in an encoder built for [batch] sequences. *)
Definition toy_gru_sized (b batch : nat) : StackGRU Z :=
  {| n_layers := 1; n_directions := 2; batch_size := batch; hidden_size := 1;
     output_size := 3;
     forward := forward (toy_gru b);
     init_hidden := init_hidden (toy_gru b);
     init_stack := init_stack (toy_gru b);
     criterion := criterion (toy_gru b) |}.

Definition toy_encoder_sized (b batch : nat) : StackGRUEncoder Z :=
  {| encoder_gru := toy_gru_sized b batch;
     hidden_to_mu := λ t, t;
     hidden_to_logvar := λ t, tmap Z.opp t |}.

(** ** Facts about lists: blocks, gathers, replication *)
Section list_facts.
Context {A : Type}.
Implicit Types (l : list A) (ls : list (list A)).

Lemma length_chunks size count l : length (chunks size count l) = count.
Proof. revert l. induction count as [|c IH]; intros l; simpl; [done|]. by rewrite IH. Qed.

Lemma chunks_lengths size count l :
  length l = count * size → Forall (λ c, length c = size) (chunks size count l).
Proof.
  revert l. induction count as [|c IH]; intros l Hl; simpl; [constructor|].
  constructor.
  - rewrite length_take. lia.
  - apply IH. rewrite length_drop. lia.
Qed.

Lemma mjoin_chunks size count l :
  length l = count * size → mjoin (chunks size count l) = l.
Proof.
  revert l. induction count as [|c IH]; intros l Hl; simpl.
  - by destruct l.
  - rewrite IH; [apply take_drop|]. rewrite length_drop. lia.
Qed.

Lemma chunks_mjoin size ls :
  Forall (λ c, length c = size) ls → chunks size (length ls) (mjoin ls) = ls.
Proof.
  induction 1 as [|c ls Hc _ IH]; simpl; [done|].
  rewrite take_app_length', drop_app_length' by done. by rewrite IH.
Qed.

Lemma length_mjoin_same size ls :
  Forall (λ c, length c = size) ls → length (mjoin ls) = length ls * size.
Proof.
  induction 1 as [|c ls Hc _ IH]; simpl; [done|]. rewrite length_app, IH. lia.
Qed.

Lemma gather_seq_from l (r : list A) (f : nat → nat) start :
  (∀ k, k < length r → l !! f (start + k) = r !! k) →
  gather l (f <$> seq start (length r)) = Some r.
Proof.
  unfold gather. revert start. induction r as [|x r IH]; intros start Hk; simpl; [done|].
  specialize (Hk 0 ltac:(simpl; lia)) as H0. rewrite Nat.add_0_r in H0. simpl in H0.
  rewrite H0. simpl. rewrite IH; [done|].
  intros k Hlt. replace (S start + k) with (start + S k) by lia.
  apply (Hk (S k)). simpl. lia.
Qed.

Lemma gather_seq l (r : list A) (f : nat → nat) n :
  length r = n → (∀ k, k < n → l !! f k = r !! k) →
  gather l (f <$> seq 0 n) = Some r.
Proof. intros <- Hk. by apply gather_seq_from. Qed.

Lemma lookup_mjoin_replicate l n k :
  k < n * length l → mjoin (replicate n l) !! k = l !! (k `mod` length l).
Proof.
  revert k. induction n as [|n IH]; intros k Hk; simpl in *; [lia|].
  destruct (decide (k < length l)) as [Hlt|Hge].
  - rewrite lookup_app_l by done. by rewrite Nat.mod_small.
  - rewrite lookup_app_r by lia. rewrite IH by lia.
    f_equal. replace k with ((k - length l) + 1 * length l) at 2 by lia.
    by rewrite Nat.Div0.mod_add.
Qed.

Lemma lookup_bind_replicate l n k :
  0 < n → (l ≫= replicate n) !! k = l !! (k / n).
Proof.
  intros Hn. revert k. induction l as [|x l IH]; intros k; simpl; [done|].
  destruct (decide (k < n)) as [Hlt|Hge].
  - rewrite lookup_app_l by (by rewrite length_replicate).
    rewrite Nat.div_small by done. simpl. by apply lookup_replicate_2.
  - rewrite lookup_app_r by (rewrite length_replicate; lia).
    rewrite length_replicate, IH.
    replace k with ((k - n) + 1 * n) at 2 by lia.
    rewrite Nat.div_add by lia. by rewrite Nat.add_1_r.
Qed.
End list_facts.


(** ** Flat positions, broadcasting and tiling *)
Lemma ravel_unravel s k : k < numel s → ravel s (unravel s k) = k.
Proof.
  revert k. induction s as [|d ds IH]; intros k Hk; simpl in *; [lia|].
  destruct (decide (numel ds = 0)) as [Hz|Hnz]; [rewrite Hz in Hk; lia|].
  rewrite IH by (by apply Nat.mod_upper_bound).
  pose proof (Nat.div_mod_eq k (numel ds)). lia.
Qed.

Lemma unravel_bounds s k :
  k < numel s → Forall2 (λ d i, i < d) s (unravel s k).
Proof.
  revert k. induction s as [|d ds IH]; intros k Hk; simpl in *; [constructor|].
  destruct (decide (numel ds = 0)) as [Hz|Hnz]; [rewrite Hz in Hk; lia|].
  constructor.
  - apply Nat.Div0.div_lt_upper_bound. lia.
  - apply IH. by apply Nat.mod_upper_bound.
Qed.

Lemma bshape_same r : bshape r r = Some r.
Proof.
  induction r as [|a r IH]; simpl; [done|].
  rewrite IH. simpl. by rewrite decide_True.
Qed.

Lemma bindex_bounded s idx :
  Forall2 (λ d i, i < d) s idx → bindex s idx = idx.
Proof.
  unfold bindex. induction 1 as [|d i s idx Hlt _ IH]; simpl; [done|].
  rewrite IH. case_decide; [|done]. f_equal. lia.
Qed.

Lemma bpos_same s k : k < numel s → bpos s s k = k.
Proof.
  intros Hk. unfold bpos.
  rewrite bindex_bounded.
  - rewrite reverse_involutive. by apply ravel_unravel.
  - apply Forall2_reverse. by apply unravel_bounds.
Qed.

Lemma gather_id {A} (l : list A) (f : nat → nat) n :
  length l = n → (∀ k, k < n → f k = k) → gather l (f <$> seq 0 n) = Some l.
Proof.
  intros Hl Hf. apply gather_seq; [done|]. intros k Hk. by rewrite Hf.
Qed.

Lemma map2_same_shape {A B C} (f : A → B → C) (a : tensor A) (b : tensor B) :
  shape a = shape b → wf a → wf b →
  map2 f a b = Ok (Tensor (shape a) (zip_with f (data a) (data b))).
Proof.
  unfold wf, map2. intros Hs Ha Hb. rewrite <- Hs, bshape_same, reverse_involutive.
  rewrite (gather_id (data a)); [|done|intros; by apply bpos_same]. simpl.
  rewrite (gather_id (data b)); [done|congruence|intros; by apply bpos_same].
Qed.

Lemma map2_inplace_same_shape {A B} (f : A → B → A) (a : tensor A) (b : tensor B) :
  shape a = shape b → wf a → wf b →
  map2_ f a b = Ok (Tensor (shape a) (zip_with f (data a) (data b))).
Proof.
  intros. unfold map2_. rewrite map2_same_shape by done. simpl.
  by rewrite decide_True.
Qed.

Lemma tile_ones {A} (reps s : list nat) (l : list A) :
  Forall (λ r, r = 1) reps → length reps = length s → length l = numel s →
  tile reps s l = l.
Proof.
  intros Hr. revert s l. induction Hr as [|r reps -> _ IH]; intros s l Hlen Hl; [by destruct s|].
  destruct s as [|d ds]; [done|]. simpl in *.
  rewrite app_nil_r.
  rewrite <- (mjoin_chunks (numel ds) d l) at 2 by lia.
  f_equal. rewrite <- (list_fmap_id (chunks _ _ _)) at 2.
  apply Forall_fmap_ext_1.
  eapply Forall_impl; [apply chunks_lengths; lia|].
  intros c Hc. simpl. apply IH; [lia|done].
Qed.

Lemma tile_cons {A} r rs d ds (l : list A) :
  tile (r :: rs) (d :: ds) l
  = mjoin (replicate r (mjoin (tile rs ds <$> chunks (numel ds) d l))).
Proof. done. Qed.

Lemma tile_first {A} (k : nat) (reps s : list nat) d (l : list A) :
  Forall (λ r, r = 1) reps → length reps = length s → length l = d * numel s →
  tile (k :: reps) (d :: s) l = mjoin (replicate k l).
Proof.
  intros Hr Hlen Hl. rewrite tile_cons. do 2 f_equal.
  rewrite <- (mjoin_chunks (numel s) d l) at 2 by lia.
  f_equal. rewrite <- (list_fmap_id (chunks _ _ _)) at 2.
  apply Forall_fmap_ext_1.
  eapply Forall_impl; [apply chunks_lengths; lia|].
  intros c Hc. simpl. by apply tile_ones.
Qed.

Lemma repeat_first {A} (k : nat) (t : tensor A) a b c :
  shape t = [a; b; c] → wf t →
  repeat [k; 1; 1] t = Ok (Tensor [k * a; b; c] (mjoin (replicate k (data t)))).
Proof.
  unfold wf, repeat. intros Hs Hwf. rewrite Hs in *.
  rewrite decide_True by (simpl; lia).
  change (replicate _ 1 ++ [a; b; c]) with [a; b; c].
  rewrite tile_first; [|by repeat constructor|done|done].
  simpl. by rewrite !Nat.add_0_r.
Qed.

Lemma repeat_rows {A} (k : nat) (t : tensor A) n :
  shape t = [n] ∨ shape t = [1; n] → wf t →
  repeat [k; 1] t = Ok (Tensor [k; n] (mjoin (replicate k (data t)))).
Proof.
  unfold wf, repeat. intros Hs Hwf.
  assert (replicate (length [k; 1] - length (shape t)) 1 ++ shape t = [1; n]) as Hpad
    by (by destruct Hs as [-> | ->]).
  rewrite decide_True by (destruct Hs as [-> | ->]; simpl; lia).
  rewrite Hpad.
  rewrite tile_first; [|by repeat constructor|done|destruct Hs as [Hs|Hs]; rewrite Hs in Hwf; simpl in *; lia].
  simpl. by rewrite Nat.mul_1_r, Nat.add_0_r.
Qed.


(** ** The two transpositions of the priming tensor *)
Lemma length_mjoin_replicate {A} (l : list A) n :
  length (mjoin (replicate n l)) = n * length l.
Proof. induction n as [|n IH]; simpl; [done|]. rewrite length_app, IH. lia. Qed.

Lemma length_bind_replicate {A} (l : list A) n :
  length (l ≫= replicate n) = length l * n.
Proof.
  induction l as [|x l IH]; [done|].
  rewrite bind_cons, length_app, length_replicate, IH. simpl. lia.
Qed.

Lemma transpose_rows {A} (p : list A) B L :
  length p = L → 0 < B →
  transpose 1 0 (Tensor [B; L] (mjoin (replicate B p)))
  = Ok (Tensor [L; B] (p ≫= replicate B)).
Proof.
  intros Hp HB. unfold transpose. cbn [shape data].
  rewrite decide_True by (simpl; lia).
  change (swap 1 0 [B; L]) with [L; B].
  erewrite gather_seq; [done| |].
  - rewrite length_bind_replicate. simpl. lia.
  - intros k Hk. simpl in Hk. cbn [unravel ravel numel foldr swap].
    change (swap 1 0 ?l) with (<[1 := l !!! 0]> (<[0 := l !!! 1]> l)).
    cbn -[Nat.div Nat.modulo].
    rewrite lookup_bind_replicate by done.
    rewrite lookup_mjoin_replicate.
    + f_equal. rewrite Hp.
      rewrite !Nat.mul_1_r, !Nat.div_1_r, Nat.add_0_r.
      rewrite Nat.add_comm, Nat.Div0.mod_add.
      apply Nat.mod_small. apply Nat.Div0.div_lt_upper_bound. lia.
    + rewrite Hp. rewrite !Nat.mul_1_r, !Nat.div_1_r, Nat.add_0_r.
      assert (k `mod` B < B) by (apply Nat.mod_upper_bound; lia).
      assert (k / B < L) by (apply Nat.Div0.div_lt_upper_bound; lia).
      nia.
Qed.

Lemma transpose_columns {A} (p : list A) B L :
  length p = L → 0 < B →
  transpose 0 2 (Tensor [L; 1; B] (p ≫= replicate B))
  = Ok (Tensor [B; 1; L] (mjoin (replicate B p))).
Proof.
  intros Hp HB. unfold transpose. cbn [shape data].
  rewrite decide_True by (simpl; lia).
  change (swap 0 2 [L; 1; B]) with [B; 1; L].
  erewrite gather_seq; [done| |].
  - rewrite length_mjoin_replicate. simpl. lia.
  - intros k Hk. simpl in Hk. cbn [unravel ravel numel foldr swap].
    change (swap 0 2 ?l) with (<[0 := l !!! 2]> (<[2 := l !!! 0]> l)).
    cbn -[Nat.div Nat.modulo].
    rewrite lookup_bind_replicate by done.
    rewrite lookup_mjoin_replicate by (rewrite Hp; lia).
    rewrite Hp. f_equal.
    repeat rewrite ?Nat.add_0_r, ?Nat.mul_1_r, ?Nat.div_1_r in *.
    destruct (decide (L = 0)) as [->|HL]; [lia|].
    rewrite Nat.Div0.mod_mod.
    rewrite (Nat.div_small (k `mod` L) L) by (by apply Nat.mod_upper_bound).
    rewrite Nat.mul_0_l, Nat.add_0_l.
    rewrite Nat.div_add_l by lia.
    rewrite (Nat.div_small (k / L)); [lia|].
    apply Nat.Div0.div_lt_upper_bound. lia.
Qed.

Lemma view_prime {A} (d : list A) L B :
  length d = L * B → 0 < B →
  view [None; Some 1; Some B] (Tensor [L; B] d) = Ok (Tensor [L; 1; B] d).
Proof.
  intros Hd HB. unfold view, infer_size. cbn -[Nat.div Nat.modulo].
  rewrite Hd, Nat.add_0_r, Nat.mul_1_r.
  rewrite decide_True by (split; [lia|apply Nat.Div0.mod_mul]).
  by rewrite Nat.div_mul by lia.
Qed.


(** ** Indexing the priming tensor; appending a column *)
Lemma bind_replicate_join {A} (l : list A) n :
  l ≫= replicate n = mjoin (replicate n <$> l).
Proof. induction l as [|x l IH]; [done|]. by rewrite bind_cons, fmap_cons, IH. Qed.

Lemma chunks_bind_replicate {A} (l : list A) n :
  chunks n (length l) (l ≫= replicate n) = replicate n <$> l.
Proof.
  rewrite bind_replicate_join.
  rewrite <- (length_fmap (replicate n) l). apply chunks_mjoin.
  apply Forall_fmap, Forall_true. intros x. simpl. apply length_replicate.
Qed.

Lemma zip_with_app_lengths {A} a b (xs ys : list (list A)) :
  Forall (λ c, length c = a) xs → Forall (λ c, length c = b) ys →
  Forall (λ c, length c = a + b) (zip_with app xs ys).
Proof.
  intros Hx. revert ys. induction Hx as [|x xs Hx _ IH]; intros ys Hy; simpl; [constructor|].
  destruct Hy as [|y ys Hy Hys]; constructor.
  - rewrite length_app. lia.
  - by apply IH.
Qed.

Section prelude.
Context {A : Type}.
Implicit Types (p : list A).

Lemma getitem_last p x L B :
  length p = L → 0 < B →
  getitem (-1) (Tensor [S L; 1; B] ((p ++ [x]) ≫= replicate B))
  = Ok (Tensor [1; B] (replicate B x)).
Proof.
  intros Hp HB. unfold getitem. cbn [shape data].
  rewrite (decide_True (P := (-1 < 0)%Z)) by lia. rewrite decide_True by lia.
  do 2 f_equal.
  replace (Z.to_nat (-1 + Z.of_nat (S L))) with L by lia.
  rewrite bind_app. simpl. rewrite app_nil_r, Nat.add_0_r, Nat.mul_1_r.
  rewrite drop_app_length' by (rewrite length_bind_replicate; lia).
  rewrite take_ge; [done|]. rewrite length_replicate. lia.
Qed.

Lemma slice_init_iter p x L B :
  length p = L → 0 < B →
  slice None (Some (-1)%Z) (Tensor [S L; 1; B] ((p ++ [x]) ≫= replicate B)) ≫= iter
  = Ok ((λ y, Tensor [1; B] (replicate B y)) <$> p).
Proof.
  intros Hp HB. unfold slice, slice_bound. cbn [shape data].
  rewrite (decide_True (P := (-1 < 0)%Z)) by lia.
  replace (Z.to_nat (0 `max` ((-1 + Z.of_nat (S L)) `min` Z.of_nat (S L)))) with L by lia.
  rewrite Nat.sub_0_r. simpl. rewrite Nat.add_0_r, Nat.mul_1_r.
  unfold iter. simpl. rewrite Nat.add_0_r, Nat.mul_1_r. f_equal.
  rewrite drop_0, bind_app, take_app_length' by (rewrite length_bind_replicate; lia).
  rewrite <- Hp, chunks_bind_replicate. by rewrite <- list_fmap_compose.
Qed.

Lemma cat_column (d u : list A) B T :
  length d = B * T → length u = B →
  cat (Tensor [B; 1; T] d) (Tensor [B; 1; 1] u) 2
  = Ok (Tensor [B; 1; T + 1] (mjoin (zip_with app (chunks T B d) (chunks 1 B u)))).
Proof.
  intros Hd Hu. unfold cat. cbn [shape data]. simpl.
  rewrite decide_True by done.
  by rewrite !Nat.mul_1_r.
Qed.

Lemma cat_column_wf (d u : list A) B T :
  length d = B * T → length u = B →
  length (mjoin (zip_with app (chunks T B d) (chunks 1 B u))) = B * (T + 1).
Proof.
  intros Hd Hu.
  rewrite (length_mjoin_same (T + 1)).
  - rewrite length_zip_with, !length_chunks. lia.
  - apply zip_with_app_lengths; apply chunks_lengths; lia.
Qed.
End prelude.


(** ** One sampling step *)
Lemma view_rows {A} (t : tensor A) B V :
  0 < B → length (data t) = B * V →
  view [Some B; None] t = Ok (Tensor [B; V] (data t)).
Proof.
  intros HB Hd. unfold view, infer_size. cbn -[Nat.div Nat.modulo].
  rewrite Hd, Nat.mul_1_r.
  rewrite decide_True by (split; [lia|rewrite Nat.mul_comm; apply Nat.Div0.mod_mul]).
  by rewrite Nat.mul_comm, Nat.div_mul by lia.
Qed.

Lemma view_row {A} (t : tensor A) B :
  length (data t) = B →
  view [Some 1; None] t = Ok (Tensor [1; B] (data t)).
Proof.
  intros Hd. unfold view, infer_size. cbn -[Nat.div Nat.modulo].
  rewrite Hd. rewrite decide_True by (split; [lia|apply Nat.mod_1_r]).
  by rewrite Nat.div_1_r.
Qed.

Lemma unsqueeze_column {A} (d : list A) B :
  unsqueeze 2 (Tensor [B; 1] d) = Ok (Tensor [B; 1; 1] d).
Proof. done. Qed.

Section sampling.
Context {F N : Type} `{!Float F, !Sampler F N}.

Lemma bind_lift_ok {A B} (a : A) (f : A → M N B) g :
  (lift (Ok a) ≫= f) g = f a g.
Proof. done. Qed.

Lemma bind_lift_err {A B} e (f : A → M N B) g :
  (lift (Err e) ≫= f) g = Err e.
Proof. done. Qed.

Lemma bind_draw {B} (f : N → M N B) g :
  (draw ≫= f) g = f (stream g (cursor g)) (Generator (stream g) (S (cursor g))).
Proof. done. Qed.

Lemma sample_step_ok (self : StackGRUDecoder F) temperature B
    gen input_token hidden stack (g : generator N) T :
  cell_rows self → multinomial_rows → 0 < B →
  shape gen = [B; 1; T] → wf gen → shape input_token = [1; B] →
  ∃ output hidden' stack' top_idx_data,
    forward self input_token hidden stack = (output, hidden', stack') ∧
    length top_idx_data = B ∧
    view [Some B; None] output = Ok (Tensor [B; output_size self] (data output)) ∧
    multinomial (stream g (cursor g))
      (tmap fexp (tmap (λ x, fdiv x temperature)
                    (Tensor [B; output_size self] (data output)))) 1
      = Ok (Tensor [B; 1] top_idx_data) ∧
    sample_step self temperature B (gen, input_token, hidden, stack) g
    = Ok ((Tensor [B; 1] top_idx_data,
           (Tensor [B; 1; T + 1]
              (mjoin (zip_with app (chunks T B (data gen)) (chunks 1 B top_idx_data))),
            Tensor [1; B] top_idx_data, hidden', stack')),
          Generator (stream g) (S (cursor g))).
Proof.
  intros [HV Hcell] Hmult HB Hgen Hwf Hinp.
  specialize (Hcell input_token hidden stack B Hinp).
  destruct (forward self input_token hidden stack) as [[output hidden'] stack'] eqn:Hfw.
  simpl in Hcell.
  pose proof (view_rows output B (output_size self) HB Hcell) as Hview.
  destruct (Hmult (stream g (cursor g))
              (tmap fexp (tmap (λ x, fdiv x temperature)
                            (Tensor [B; output_size self] (data output))))
              B (output_size self)) as ([ts td] & Hm & Hts & Htd); [done|done| |].
  { unfold wf. simpl. rewrite !length_fmap. lia. }
  simpl in Hts. subst ts. unfold wf in Htd. simpl in Htd.
  rewrite Nat.mul_1_r in Htd.
  exists output, hidden', stack', td. split_and!; [done..|].
  unfold sample_step. rewrite Hfw, Hview, bind_lift_ok, bind_draw, Hm, bind_lift_ok.
  rewrite unsqueeze_column, bind_lift_ok.
  destruct gen as [gs gd]. simpl in Hgen. subst gs. unfold wf in Hwf. simpl in Hwf.
  rewrite cat_column by (simpl; lia).
  rewrite bind_lift_ok. rewrite (view_row _ B) by done.
  by rewrite bind_lift_ok.
Qed.
End sampling.


(** ** The sampling loop *)
Section loop.
Context {F N : Type} `{!Float F, !Sampler F N}.

Lemma generation_loop_S (self : StackGRUDecoder F) end_token temperature B n st
    (g : generator N) :
  generation_loop self end_token temperature B (S n) st g
  = match sample_step self temperature B st g with
    | Ok ((top_idx, st'), g1) =>
        match end_reached B top_idx end_token with
        | Ok true => Ok (st'.1.1.1, g1)
        | Ok false => generation_loop self end_token temperature B n st' g1
        | Err e => Err e
        end
    | Err e => Err e
    end.
Proof.
  simpl. unfold mbind, M_bind.
  destruct (sample_step self temperature B st g) as [[[top st'] g1]|]; [|done].
  simpl. by destruct (end_reached B top end_token) as [[]|].
Qed.

Lemma end_reached_batch B top_idx end_token :
  B ≠ 1 → end_reached B top_idx end_token = Ok false.
Proof. intros HB. unfold end_reached. by rewrite decide_False. Qed.

Lemma end_reached_single (x e : Z) :
  end_reached 1 (Tensor [1; 1] [x]) (Tensor [1] [e]) = Ok (x =? e)%Z.
Proof. done. Qed.

Lemma generation_loop_ok (self : StackGRUDecoder F) end_token temperature B n :
  cell_rows self → multinomial_rows → 0 < B →
  (B = 1 → shape end_token = [1] ∧ wf end_token) →
  ∀ gen input_token hidden stack (g : generator N) T,
    shape gen = [B; 1; T] → wf gen → shape input_token = [1; B] →
    ∃ toks gen',
      generation_loop self end_token temperature B n
        (gen, input_token, hidden, stack) g
      = Ok (gen', Generator (stream g) (cursor g + length toks))
      ∧ sampled_chain self temperature B (stream g) (cursor g)
          input_token hidden stack toks
      ∧ append_columns gen toks = Ok gen'
      ∧ Forall (λ t, shape t = [B; 1] ∧ wf t) toks
      ∧ length toks ≤ n
      ∧ (B ≠ 1 → length toks = n)
      ∧ (B = 1 → stops_at_end end_token n toks).
Proof.
  intros Hcell Hmult HB Hend.
  induction n as [|n IH]; intros gen input_token hidden stack g T Hgen Hwf Hinp.
  { exists [], gen. split_and!; simpl; try done.
    - destruct g. simpl. by rewrite Nat.add_0_r.
    - constructor.
    - intros _. split; [intros i t Hi; by rewrite lookup_nil in Hi|simpl; lia]. }
  destruct (sample_step_ok self temperature B gen input_token hidden stack g T)
    as (output & hidden' & stack' & td & Hfw & Htd & Hview & Hm & Hstep); try done.
  set (gen1 := Tensor [B; 1; T + 1]
                 (mjoin (zip_with app (chunks T B (data gen)) (chunks 1 B td)))) in *.
  assert (wf gen1) as Hwf1.
  { unfold wf, gen1. simpl. rewrite Nat.add_0_r.
    rewrite cat_column_wf; [lia| |done].
    unfold wf in Hwf. rewrite Hgen in Hwf. simpl in Hwf. lia. }
  assert (unsqueeze 2 (Tensor [B; 1] td) ≫= (λ c, cat gen c 2) = Ok gen1) as Hcat.
  { rewrite unsqueeze_column. simpl. destruct gen as [gs gd]. simpl in *. subst gs.
    unfold wf in Hwf. simpl in Hwf. rewrite cat_column by lia. done. }
  assert (view [Some 1; None] (Tensor [B; 1] td) = Ok (Tensor [1; B] td)) as Hrow
    by (by apply view_row).
  assert (shape (Tensor [B; 1] td) = [B; 1] ∧ wf (Tensor [B; 1] td)) as Htop.
  { split; [done|]. unfold wf. simpl. lia. }
  rewrite generation_loop_S, Hstep.
  assert (∀ b : bool, end_reached B (Tensor [B; 1] td) end_token = Ok b →
          (b = true → B = 1 ∧ data (Tensor [B; 1] td) = data end_token) ∧
          (b = false → B = 1 → data (Tensor [B; 1] td) ≠ data end_token)) as Hstop.
  { intros b Hb. destruct (decide (B = 1)) as [->|Hne].
    - destruct (Hend eq_refl) as [Hes Hewf]. destruct end_token as [es ed].
      simpl in Hes. subst es. unfold wf in Hewf. simpl in Hewf.
      destruct ed as [|e [|??]]; try done.
      destruct td as [|x [|??]]; try done.
      rewrite end_reached_single in Hb. injection Hb as <-. simpl.
      split; [intros Heq%Z.eqb_eq; by subst|intros Hneq%Z.eqb_neq _ [=]; done].
    - rewrite end_reached_batch in Hb by done. injection Hb as <-. done. }
  destruct (end_reached B (Tensor [B; 1] td) end_token) as [[]|e] eqn:Hreached.
  - (* the end token was sampled by a single sequence: break *)
    destruct (Hstop true eq_refl) as [[-> Hdata] _]; [done|].
    exists [Tensor [1; 1] td], gen1. split_and!; simpl; try done.
    + by rewrite Nat.add_1_r.
    + econstructor; [done..|]. constructor.
    + unfold gen1 in Hcat |- *. simpl in Hcat. by rewrite Hcat.
    + by constructor.
    + lia.
    + intros _. split.
      * intros i t Hi Hlt. simpl in Hlt. lia.
      * intros _. by exists (Tensor [1; 1] td).
  - (* continue with the sampled token as next input *)
    destruct (IH gen1 (Tensor [1; B] td) hidden' stack'
                (Generator (stream g) (S (cursor g))) (T + 1))
      as (toks & gen' & Hloop & Hchain & Happ & Htoks & Hlen & Hbatch & Hsingle);
      try done.
    exists (Tensor [B; 1] td :: toks), gen'. split_and!.
    + rewrite Hloop. simpl. do 3 f_equal. lia.
    + econstructor; done.
    + simpl. simpl in Hcat. by rewrite Hcat.
    + by constructor.
    + simpl. lia.
    + intros Hne. simpl. by rewrite Hbatch.
    + intros HB1. destruct (Hsingle HB1) as [Hbefore Hlast].
      destruct (Hstop false eq_refl) as [_ Hneq].
      split.
      * intros [|i] t Hi Hlt; simpl in *.
        -- injection Hi as <-. by apply Hneq.
        -- apply (Hbefore i t Hi). lia.
      * intros Hlt. simpl in Hlt.
        destruct Hlast as (t & Ht & Hdata); [lia|].
        exists t. split; [|done].
        destruct toks; [done|]. by rewrite last_cons, Ht.
  - (* the comparison cannot fail *)
    exfalso. destruct (decide (B = 1)) as [->|Hne].
    + destruct (Hend eq_refl) as [Hes Hewf]. destruct end_token as [es ed].
      simpl in Hes. subst es. unfold wf in Hewf. simpl in Hewf.
      destruct ed as [|? [|??]]; try done.
      destruct td as [|? [|??]]; try done.
    + by rewrite end_reached_batch in Hreached.
Qed.
End loop.


(** ** The rows of the generated tensor *)
Lemma chunks_one {A} (u : list A) :
  chunks 1 (length u) u = (λ x, [x]) <$> u.
Proof. induction u as [|x u IH]; simpl; [done|]. by rewrite drop_0, IH. Qed.

Lemma append_columns_rows (toks : list (tensor Z)) B :
  Forall (λ t, shape t = [B; 1] ∧ wf t) toks →
  ∀ gen gen' T,
    shape gen = [B; 1; T] → wf gen →
    append_columns gen toks = Ok gen' →
    shape gen' = [B; 1; T + length toks] ∧ wf gen' ∧
    ∀ b row, chunks T B (data gen) !! b = Some row →
      chunks (T + length toks) B (data gen') !! b
      = Some (row ++ omap (λ t, data t !! b) toks).
Proof.
  induction 1 as [|[ts td] toks [Hts Htd] _ IH]; intros [gs gd] gen' T Hgs Hwf Happ;
    simpl in *.
  { injection Happ as <-. rewrite Nat.add_0_r. split_and!; [done..|].
    intros b row Hrow. by rewrite app_nil_r. }
  subst ts gs. unfold wf in Htd, Hwf. simpl in Htd, Hwf.
  rewrite unsqueeze_column in Happ. simpl in Happ.
  rewrite cat_column in Happ by lia. simpl in Happ.
  apply (IH _ _ (T + 1)) in Happ as (Hs' & Hwf' & Hrows); [| done |].
  - replace (T + S (length toks)) with (T + 1 + length toks) by lia.
    split_and!; [done..|].
    intros b row Hrow. simpl in Hrows.
    assert (b < B) as Hb.
    { apply lookup_lt_Some in Hrow. by rewrite length_chunks in Hrow. }
    destruct (lookup_lt_is_Some_2 td b) as [x Hx]; [lia|].
    rewrite Hx. simpl. rewrite (Hrows b (row ++ [x])).
    + by rewrite <- app_assoc.
    + replace B with (length (zip_with app (chunks T B gd) (chunks 1 B td))) at 1
        by (rewrite length_zip_with, !length_chunks; lia).
      rewrite chunks_mjoin.
      * rewrite lookup_zip_with, Hrow. simpl.
        replace B with (length td) by lia.
        by rewrite chunks_one, list_lookup_fmap, Hx.
      * apply zip_with_app_lengths; apply chunks_lengths; lia.
  - unfold wf. simpl. rewrite cat_column_wf by lia. lia.
Qed.


(** ** [generate_from_latent] from the priming to the last sample *)
Lemma list_snoc_inv {A} (l : list A) n :
  length l = S n → ∃ p x, l = p ++ [x] ∧ length p = n.
Proof.
  intros Hl. destruct l as [|y l] using rev_ind; [done|].
  exists l, y. split; [done|]. rewrite length_app in Hl. simpl in Hl. lia.
Qed.

Section generation.
Context {F N : Type} `{!Float F, !Sampler F N}.

Lemma foldl_final_state (self : StackGRU F) entries hidden stack :
  foldl (λ '(hidden, stack) entry,
           let '(_, hidden, stack) := forward self entry hidden stack in
           (hidden, stack))
        (hidden, stack) entries
  = final_state self hidden stack entries.
Proof.
  revert hidden stack. induction entries as [|x entries IH]; intros hidden stack;
    simpl; [done|].
  destruct (forward self x hidden stack) as [[o h] s]. apply IH.
Qed.

(** The state in which the sampling loop of [generate_from_latent]
    starts. *)
Lemma generate_from_latent_ok (self : StackGRUDecoder F) latent_z prime_input
    end_token generate_len temperature (g : generator N) B L d p x :
  cell_rows self → multinomial_rows → linear_layer (latent_to_hidden self) →
  shape latent_z = [1; B; d] → wf latent_z → 0 < B →
  shape prime_input = [S L] ∨ shape prime_input = [1; S L] →
  data prime_input = p ++ [x] → length p = L →
  (B = 1 → shape end_token = [1] ∧ wf end_token) →
  let k := n_layers self * n_directions self in
  let hidden := latent_to_hidden self
                  (Tensor [k * 1; B; d] (mjoin (replicate k (data latent_z)))) in
  let start := final_state self hidden (init_stack self (Some B))
                 ((λ y, Tensor [1; B] (replicate B y)) <$> p) in
  let primed := Tensor [B; 1; S L] (mjoin (replicate B (data prime_input))) in
  ∃ toks gen',
    generate_from_latent self latent_z prime_input end_token generate_len
      temperature g
    = Ok (gen', Generator (stream g) (cursor g + length toks))
    ∧ sampled_chain self temperature B (stream g) (cursor g)
        (Tensor [1; B] (replicate B x)) start.1 start.2 toks
    ∧ append_columns primed toks = Ok gen'
    ∧ Forall (λ t, shape t = [B; 1] ∧ wf t) toks
    ∧ length toks ≤ generate_len
    ∧ (B ≠ 1 → length toks = generate_len)
    ∧ (B = 1 → stops_at_end end_token generate_len toks).
Proof.
  intros Hcell Hmult Hlin Hz Hzwf HB Hps Hpd Hp Hend k hidden start primed.
  assert (wf prime_input) as Hpwf.
  { unfold wf. rewrite Hpd, length_app. simpl.
    destruct Hps as [-> | ->]; simpl; lia. }
  destruct (Hlin (Tensor [k * 1; B; d] (mjoin (replicate k (data latent_z))))
              [k * 1; B] d eq_refl) as [d' Hhs].
  fold hidden in Hhs.
  destruct (generation_loop_ok self end_token temperature B generate_len
              Hcell Hmult HB Hend primed (Tensor [1; B] (replicate B x))
              start.1 start.2 g (S L))
    as (toks & gen' & Hloop & Hrest); [done| |done|].
  { unfold wf, primed. simpl. rewrite length_mjoin_replicate, Hpd, length_app.
    simpl. lia. }
  exists toks, gen'. split; [|done].
  unfold generate_from_latent.
  rewrite (repeat_first _ _ 1 B d), bind_lift_ok by done.
  fold k hidden.
  assert (shape_at hidden 1 = Ok B) as -> by (unfold shape_at; by rewrite Hhs).
  rewrite bind_lift_ok.
  rewrite (repeat_rows _ _ (S L)), bind_lift_ok by done.
  rewrite Hpd.
  rewrite transpose_rows, bind_lift_ok by (rewrite ?length_app; simpl; lia).
  change (len (Tensor [B; S L] ?l)) with (@Ok nat B). rewrite bind_lift_ok.
  rewrite view_prime, bind_lift_ok
    by (rewrite ?length_bind_replicate, ?length_app; simpl; lia).
  rewrite transpose_columns, bind_lift_ok by (rewrite ?length_app; simpl; lia).
  rewrite (slice_init_iter p x L B), bind_lift_ok by done.
  rewrite foldl_final_state. fold start.
  destruct start as [hidden0 stack0] eqn:Hstart.
  rewrite (getitem_last p x L B), bind_lift_ok by done.
  rewrite <- Hpd. exact Hloop.
Qed.
End generation.

(** ** The encoder *)

Lemma seq_bind_rows (B H : nat) (f : nat → nat) :
  (b ← seq 0 B; k ← seq 0 H; [f (b * H + k)]) = f <$> seq 0 (B * H).
Proof.
  induction B as [|B IH]; [done|].
  rewrite seq_S, bind_app, IH. simpl.
  replace (H + B * H) with (B * H + H) by lia.
  rewrite seq_app, fmap_app, app_nil_r. f_equal. simpl.
  replace (seq (B * H) H) with (seq (B * H + 0) H) by (by rewrite Nat.add_0_r).
  rewrite <- (fmap_add_seq (B * H) 0 H), <- list_fmap_compose.
  generalize (seq 0 H). intros l. induction l as [|k l IHl]; [done|].
  rewrite bind_cons, fmap_cons, IHl. done.
Qed.

Lemma gather_block {A} (l : list A) off n :
  off + n ≤ length l →
  gather l ((λ j, off + j) <$> seq 0 n) = Some (take n (drop off l)).
Proof.
  intros Hle. apply gather_seq.
  - rewrite length_take, length_drop. lia.
  - intros k Hk. by rewrite lookup_take_lt, lookup_drop by done.
Qed.

Lemma view_exact {A} (s : list nat) (t : tensor A) :
  numel s = length (data t) → view (Some <$> s) t = Ok (Tensor s (data t)).
Proof.
  intros Hn. unfold view, infer_size.
  assert (omap id (Some <$> s) = s) as ->.
  { clear Hn. induction s as [|d s IH]; [done|]. simpl. f_equal. exact IH. }
  rewrite length_fmap, Nat.sub_diag. by rewrite decide_True.
Qed.

Section encoder_claims.
Context {F N : Type} `{!Float F, !Sampler F N}.

(** The part of the final hidden state that [encoder_train_step]
    projects: the block of the last layer, read as [batch_size] rows. *)
Lemma encoder_train_step_spec (self : StackGRUEncoder F) input_seq n s :
  shape input_seq = n :: s →
  let entries := Tensor s <$> chunks (numel s) n (data input_seq) in
  let hidden := (final_state self (init_hidden self) (init_stack self None) entries).1 in
  let block := n_directions self * (batch_size self * hidden_size self) in
  length (data hidden) = n_layers self * block → 0 < n_layers self →
  let last_layer :=
    Tensor [batch_size self; hidden_size self * n_directions self]
      (take block (drop ((n_layers self - 1) * block) (data hidden))) in
  length entries = n ∧
  encoder_train_step self input_seq
  = Ok (hidden_to_mu self last_layer, hidden_to_logvar self last_layer).
Proof.
  intros Hs entries hidden block Hlen Hlayers last_layer.
  split; [unfold entries; by rewrite length_fmap, length_chunks|].
  unfold encoder_train_step, iter. rewrite Hs. simpl. fold entries.
  rewrite foldl_final_state.
  destruct (final_state self (init_hidden self) (init_stack self None) entries)
    as [h st] eqn:Hfinal.
  subst hidden. simpl in *.
  rewrite (view_exact [n_layers self; n_directions self; batch_size self; hidden_size self])
    by (simpl; rewrite Hlen; unfold block; lia).
  simpl. unfold getitem. simpl.
  rewrite decide_True by lia. simpl.
  replace (Z.to_nat (-1 + Z.of_nat (n_layers self))) with (n_layers self - 1) by lia.
  rewrite !Nat.mul_1_r. fold block.
  rewrite (view_exact [batch_size self; hidden_size self * n_directions self]).
  - done.
  - simpl. rewrite length_take, length_drop, Hlen. unfold block. nia.
Qed.

(** With a single direction the projected block is the last layer with
    the directions of every batch element side by side. *)
Lemma directions_concatenated_unidirectional (self : StackGRU F) (hidden : tensor F) :
  n_directions self = 1 →
  length (data hidden) = n_layers self * (batch_size self * hidden_size self) →
  0 < n_layers self →
  directions_concatenated self hidden
  = Some (Tensor [batch_size self; hidden_size self * n_directions self]
            (take (n_directions self * (batch_size self * hidden_size self))
               (drop ((n_layers self - 1)
                      * (n_directions self * (batch_size self * hidden_size self)))
                  (data hidden)))).
Proof.
  intros HD Hlen Hlayers. unfold directions_concatenated. rewrite HD.
  set (off := (n_layers self - 1) * (1 * (batch_size self * hidden_size self))).
  assert ((b ← seq 0 (batch_size self); d ← seq 0 1; k ← seq 0 (hidden_size self);
           [ravel [n_layers self; 1; batch_size self; hidden_size self]
                  [n_layers self - 1; d; b; k]])
          = (λ j, off + j) <$> seq 0 (batch_size self * hidden_size self)) as ->.
  { rewrite <- seq_bind_rows. apply list_bind_ext; [|done]. intros b.
    simpl. rewrite app_nil_r. apply list_bind_ext; [|done]. intros k.
    unfold off. f_equal. simpl. lia. }
  rewrite gather_block by (unfold off; nia). simpl.
  by rewrite !Nat.add_0_r.
Qed.
End encoder_claims.

(** C4. On a bidirectional encoder with two sequences in the batch the
    hidden state that [encoder_train_step] projects is not the last layer
    with forward and backward directions concatenated: its first row holds
    the forward states of both sequences. *)
Theorem encoder_train_step_mixes_batch :
  let self := toy_encoder 2 in
  let input_seq := Tensor [2; 2] [1; 2; 3; 4]%Z in
  let hidden :=
    (final_state self (init_hidden self) (init_stack self None)
       [Tensor [2] [1; 2]%Z; Tensor [2] [3; 4]%Z]).1 in
  iter input_seq = Ok [Tensor [2] [1; 2]%Z; Tensor [2] [3; 4]%Z]
  ∧ hidden = Tensor [2; 2; 1] [2; 3; 4; 5]%Z
  ∧ encoder_train_step self input_seq
    = Ok (hidden_to_mu self (Tensor [2; 2] [2; 3; 4; 5]%Z),
          hidden_to_logvar self (Tensor [2; 2] [2; 3; 4; 5]%Z))
  ∧ directions_concatenated self hidden = Some (Tensor [2; 2] [2; 4; 3; 5]%Z)
  ∧ directions_concatenated self hidden ≠ Some (Tensor [2; 2] [2; 3; 4; 5]%Z).
Proof. vm_compute. by split_and!. Qed.


(** ** The decoder in training mode *)

Lemma fst_zip_take {A B} (l : list A) (k : list B) :
  (zip l k).*1 = take (length k) l.
Proof. revert k. induction l as [|x l IH]; intros [|y k]; simpl; [done..|]. by rewrite IH. Qed.

Lemma snd_zip_take {A B} (l : list A) (k : list B) :
  (zip l k).*2 = take (length l) k.
Proof. revert k. induction l as [|x l IH]; intros [|y k]; simpl; [done..|]. by rewrite IH. Qed.

Section train_claims.
Context {F : Type} `{!Float F}.

Lemma foldl_decoder_loop (self : StackGRU F) pairs loss hidden stack :
  (foldl (λ '(loss, hidden, stack) '(input_entry, target_entry),
            let '(output, hidden, stack) := forward self input_entry hidden stack in
            (iadd loss (criterion self output (squeeze target_entry)), hidden, stack))
         (loss, hidden, stack) pairs).1.1
  = foldl iadd loss
      (zip_with (λ output target_entry, criterion self output (squeeze target_entry))
         (unroll self hidden stack pairs.*1) pairs.*2).
Proof.
  revert loss hidden stack.
  induction pairs as [|[x t] pairs IH]; intros loss hidden stack; simpl; [done|].
  destruct (forward self x hidden stack) as [[o h] s]. simpl. apply IH.
Qed.

Lemma foldl_iadd_tensor (terms : list F) (x : F) :
  foldl iadd (LossTensor x) terms = LossTensor (foldl fadd x terms).
Proof. revert x. induction terms as [|y terms IH]; intros x; simpl; [done|]. apply IH. Qed.

Lemma total_loss_sum (terms : list F) : total_loss terms = loss_sum terms.
Proof. destruct terms as [|x rest]; [done|]. apply foldl_iadd_tensor. Qed.

(** C3. [decoder_train_step] starts from the hidden state
    [latent_to_hidden(latent_z)] and the initial stack, unrolls the cell
    over the zipped input and target entries, and returns the sum of the
    criterion of each step's output and target entry, the terms added
    with the addition of the loss values in the order of the steps (the
    integer 0 if there is no step); the number of summed terms is the
    length of the shorter sequence. *)
Theorem decoder_train_step_sum (self : StackGRUDecoder F) latent_z
    input_seq target_seq n1 s1 n2 s2 :
  shape input_seq = n1 :: s1 → shape target_seq = n2 :: s2 →
  ∃ inputs targets terms,
    iter input_seq = Ok inputs ∧ length inputs = n1
    ∧ iter target_seq = Ok targets ∧ length targets = n2
    ∧ terms = zip_with (λ output target_entry,
                          criterion self output (squeeze target_entry))
                (unroll self (latent_to_hidden self latent_z)
                   (init_stack self None) (take (n1 `min` n2) inputs))
                targets
    ∧ length terms = n1 `min` n2
    ∧ decoder_train_step self latent_z input_seq target_seq
      = Ok (loss_sum terms).
Proof.
  intros Hi Ht.
  assert (∀ h s l, length (unroll self h s l) = length l) as Hunroll.
  { intros h s l. revert h s. induction l as [|x l IH]; intros h s; simpl; [done|].
    destruct (forward self x h s) as [[??]?]. simpl. by rewrite IH. }
  exists (Tensor s1 <$> chunks (numel s1) n1 (data input_seq)),
         (Tensor s2 <$> chunks (numel s2) n2 (data target_seq)).
  eexists. split_and!; [| |..|reflexivity| |].
  - unfold iter. by rewrite Hi.
  - by rewrite length_fmap, length_chunks.
  - unfold iter. by rewrite Ht.
  - by rewrite length_fmap, length_chunks.
  - rewrite length_zip_with.
    rewrite Hunroll, length_take, !length_fmap, !length_chunks. lia.
  - unfold decoder_train_step, iter. rewrite Hi, Ht. simpl.
    set (inputs := Tensor s1 <$> chunks (numel s1) n1 (data input_seq)).
    set (targets := Tensor s2 <$> chunks (numel s2) n2 (data target_seq)).
    pose proof (foldl_decoder_loop self (zip inputs targets) (LossInt 0)
                  (latent_to_hidden self latent_z) (init_stack self None)) as Hloop.
    destruct (foldl _ _ (zip inputs targets)) as [[loss hidden] stack].
    simpl in Hloop. rewrite Hloop, <- total_loss_sum. unfold total_loss. do 2 f_equal.
    assert (length inputs = n1) as Hn1 by (unfold inputs; by rewrite length_fmap, length_chunks).
    assert (length targets = n2) as Hn2 by (unfold targets; by rewrite length_fmap, length_chunks).
    rewrite fst_zip_take, snd_zip_take. rewrite Hn1, Hn2.
    assert (take n2 inputs = take (n1 `min` n2) inputs) as ->.
    { destruct (Nat.min_spec n1 n2) as [[? ->]|[? ->]]; [|done].
      by rewrite !take_ge by lia. }
    apply zip_with_take_r'. rewrite Hunroll, length_take. lia.
Qed.
End train_claims.


(** ** The decoder in generation mode *)

Lemma iter_rows {A} (t : tensor A) B T :
  shape t = [B; 1; T] →
  iter t = Ok (Tensor [1; T] <$> chunks T B (data t)).
Proof.
  intros Hs. unfold iter. rewrite Hs. simpl. by rewrite Nat.mul_1_r, Nat.add_0_r.
Qed.

Lemma chunks_replicate {A} (l : list A) n :
  chunks (length l) n (mjoin (replicate n l)) = replicate n l.
Proof.
  rewrite <- (length_replicate n l) at 1. apply chunks_mjoin.
  by apply Forall_replicate.
Qed.

Section generation_claims.
Context {F N : Type} `{!Float F, !Sampler F N}.

(** Everything the claims about [generate_from_latent] need, from the
    documented inputs. *)
Lemma generate_from_latent_spec (self : StackGRUDecoder F) latent_z prime_input
    end_token generate_len temperature (g : generator N) B L :
  generation_inputs self latent_z prime_input end_token B L →
  ∃ toks gen' x,
    generate_from_latent self latent_z prime_input end_token generate_len
      temperature g
    = Ok (gen', Generator (stream g) (cursor g + length toks))
    ∧ last (data prime_input) = Some x
    ∧ sampled_chain self temperature B (stream g) (cursor g)
        (Tensor [1; B] (replicate B x))
        (primed_state self latent_z prime_input B L).1
        (primed_state self latent_z prime_input B L).2 toks
    ∧ Forall (λ t, shape t = [B; 1] ∧ wf t) toks
    ∧ length toks ≤ generate_len
    ∧ (B ≠ 1 → length toks = generate_len)
    ∧ (B = 1 → stops_at_end end_token generate_len toks)
    ∧ shape gen' = [B; 1; S L + length toks] ∧ wf gen'
    ∧ ∀ b, b < B →
        chunks (S L + length toks) B (data gen') !! b
        = Some (data prime_input ++ omap (λ t, data t !! b) toks).
Proof.
  intros (Hcell & Hmult & Hlin & [d Hz] & Hzwf & HB & Hps & Hpwf & Hend).
  assert (length (data prime_input) = S L) as Hlen.
  { unfold wf in Hpwf. destruct Hps as [Hps|Hps]; rewrite Hps in Hpwf;
      simpl in Hpwf; lia. }
  destruct (list_snoc_inv _ _ Hlen) as (p & x & Hpd & Hp).
  destruct (generate_from_latent_ok self latent_z prime_input end_token
              generate_len temperature g B L d p x)
    as (toks & gen' & Hrun & Hchain & Happ & Htoks & Hle & Hbatch & Hsingle);
    try done.
  exists toks, gen', x.
  assert (primed_state self latent_z prime_input B L
          = final_state self
              (latent_to_hidden self
                 (Tensor [n_layers self * n_directions self * 1; B; d]
                    (mjoin (replicate (n_layers self * n_directions self)
                              (data latent_z)))))
              (init_stack self (Some B))
              ((λ y, Tensor [1; B] (replicate B y)) <$> p)) as ->.
  { unfold primed_state. rewrite Hz, Hpd. simpl.
    by rewrite take_app_length' by done. }
  destruct (append_columns_rows toks B Htoks
              (Tensor [B; 1; S L] (mjoin (replicate B (data prime_input))))
              gen' (S L) eq_refl) as (Hs & Hwf & Hrows); [|done|].
  { unfold wf. simpl. rewrite length_mjoin_replicate, Hlen. lia. }
  split_and!; try done.
  - rewrite Hpd. apply last_snoc.
  - intros b Hb. apply Hrows. simpl.
    rewrite <- Hlen, chunks_replicate. by apply lookup_replicate_2.
Qed.

(** C5. In [generate_from_latent] every generated token is produced
    autoregressively: the returned tensor is the priming tokens followed,
    in every row, by a chain of tokens in which each token is drawn by
    [multinomial] from [exp(output / temperature)], where [output] is
    what the cell returns when it reads the previous token of the
    chain, the first step reading the last priming token; every token
    of the chain is one symbol per sequence; there is one draw of the
    generator per step, and there are [generate_len] steps, except that
    a single sequence ends with the first sampled [end_token]: then a
    token is drawn at every step up to and including the one that
    samples [end_token], and at all [generate_len] steps if none does. *)
Theorem generate_from_latent_autoregressive (self : StackGRUDecoder F)
    latent_z prime_input end_token generate_len temperature (g : generator N) B L :
  generation_inputs self latent_z prime_input end_token B L →
  ∃ toks gen' x,
    generate_from_latent self latent_z prime_input end_token generate_len
      temperature g
    = Ok (gen', Generator (stream g) (cursor g + length toks))
    ∧ last (data prime_input) = Some x
    ∧ sampled_chain self temperature B (stream g) (cursor g)
        (Tensor [1; B] (replicate B x))
        (primed_state self latent_z prime_input B L).1
        (primed_state self latent_z prime_input B L).2 toks
    ∧ Forall (λ t, shape t = [B; 1] ∧ wf t) toks
    ∧ length toks ≤ generate_len
    ∧ (B ≠ 1 → length toks = generate_len)
    ∧ (B = 1 → stops_at_end end_token generate_len toks)
    ∧ ∀ b, b < B →
        chunks (S L + length toks) B (data gen') !! b
        = Some (data prime_input ++ omap (λ t, data t !! b) toks).
Proof.
  intros Hin.
  destruct (generate_from_latent_spec self latent_z prime_input end_token
              generate_len temperature g B L Hin)
    as (toks & gen' & x & ? & ? & ? & ? & ? & ? & ? & ? & ? & ?).
  exists toks, gen', x. by split_and!.
Qed.

(** C8. With more than one sequence in the batch there is no early
    stop: exactly [generate_len] sampling steps are performed and every
    returned sequence has [len(prime_input) + generate_len] tokens,
    whatever is sampled.  With a single sequence the loop stops right
    after the first sampled token equal to [end_token].  The sampled
    tokens are those of the sampling chain from the last priming token,
    one symbol per sequence each, and they are what the returned rows
    hold after the priming tokens. *)
Theorem generate_from_latent_early_stop (self : StackGRUDecoder F)
    latent_z prime_input end_token generate_len temperature (g : generator N) B L :
  generation_inputs self latent_z prime_input end_token B L →
  ∃ toks gen' molecules x,
    generate_from_latent self latent_z prime_input end_token generate_len
      temperature g
    = Ok (gen', Generator (stream g) (cursor g + length toks))
    ∧ last (data prime_input) = Some x
    ∧ sampled_chain self temperature B (stream g) (cursor g)
        (Tensor [1; B] (replicate B x))
        (primed_state self latent_z prime_input B L).1
        (primed_state self latent_z prime_input B L).2 toks
    ∧ Forall (λ t, shape t = [B; 1] ∧ wf t) toks
    ∧ shape gen' = [B; 1; S L + length toks]
    ∧ iter gen' = Ok molecules
    ∧ length molecules = B
    ∧ Forall (λ molecule, length (data molecule) = S L + length toks) molecules
    ∧ (∀ b, b < B →
         chunks (S L + length toks) B (data gen') !! b
         = Some (data prime_input ++ omap (λ t, data t !! b) toks))
    ∧ (1 < B → length toks = generate_len)
    ∧ (B = 1 → stops_at_end end_token generate_len toks).
Proof.
  intros Hin.
  destruct (generate_from_latent_spec self latent_z prime_input end_token
              generate_len temperature g B L Hin)
    as (toks & gen' & x & Hrun & Hlast & Hchain & Htoks & _ & Hbatch & Hsingle
        & Hs & Hwf & Hrows).
  exists toks, gen', (Tensor [1; S L + length toks]
                        <$> chunks (S L + length toks) B (data gen')), x.
  split_and!; try done.
  - by apply iter_rows.
  - by rewrite length_fmap, length_chunks.
  - apply Forall_fmap. eapply Forall_impl; [apply chunks_lengths|done].
    unfold wf in Hwf. rewrite Hs in Hwf. simpl in Hwf. lia.
  - intros HB. apply Hbatch. lia.
Qed.

(** C9. Every sequence returned by [generate_from_latent] begins with
    the priming tokens: the first [len(prime_input)] entries of every
    row of the returned tensor are [prime_input]. *)
Theorem generate_from_latent_keeps_prime (self : StackGRUDecoder F)
    latent_z prime_input end_token generate_len temperature (g : generator N) B L :
  generation_inputs self latent_z prime_input end_token B L →
  ∃ gen' g' molecules,
    generate_from_latent self latent_z prime_input end_token generate_len
      temperature g
    = Ok (gen', g')
    ∧ iter gen' = Ok molecules
    ∧ length molecules = B
    ∧ Forall (λ molecule, take (S L) (data molecule) = data prime_input) molecules.
Proof.
  intros Hin.
  assert (length (data prime_input) = S L) as Hlen.
  { destruct Hin as (_ & _ & _ & _ & _ & _ & Hps & Hpwf & _).
    unfold wf in Hpwf. destruct Hps as [Hps|Hps]; rewrite Hps in Hpwf;
      simpl in Hpwf; lia. }
  destruct (generate_from_latent_spec self latent_z prime_input end_token
              generate_len temperature g B L Hin)
    as (toks & gen' & x & Hrun & _ & _ & _ & _ & _ & _ & Hs & Hwf & Hrows).
  exists gen', (Generator (stream g) (cursor g + length toks)),
    (Tensor [1; S L + length toks] <$> chunks (S L + length toks) B (data gen')).
  split_and!; try done.
  - by apply iter_rows.
  - by rewrite length_fmap, length_chunks.
  - apply Forall_fmap, Forall_lookup. intros b row Hrow. simpl.
    assert (b < B) as Hb.
    { apply lookup_lt_Some in Hrow. by rewrite length_chunks in Hrow. }
    rewrite (Hrows b Hb) in Hrow. injection Hrow as <-.
    by rewrite <- Hlen, take_app_length.
Qed.
End generation_claims.


(** ** The variational autoencoder *)

Section vae_claims.
Context {F N B FS : Type} `{!Float F, !Sampler F N, !Pickle F B, !FileSystem FS B}.

(** C6. For [mu] and [logvar] of equal sizes, [reparameterize] takes
    one draw [eps] of the sizes of [logvar] and returns, element by
    element, [eps * exp(0.5 * logvar) + mu]. *)
Theorem reparameterize_formula (self : TeacherVAE F) (mu logvar : tensor F)
    (g : generator N) :
  randn_like_shape → shape mu = shape logvar → wf mu → wf logvar →
  let eps := randn_like (stream g (cursor g)) (tmap fexp (tmap (fmul fhalf) logvar)) in
  ∃ latent_z,
    reparameterize self mu logvar g
    = Ok (latent_z, Generator (stream g) (S (cursor g)))
    ∧ shape eps = shape mu
    ∧ shape latent_z = shape mu ∧ wf latent_z
    ∧ ∀ i e m v,
        data eps !! i = Some e → data mu !! i = Some m → data logvar !! i = Some v →
        data latent_z !! i = Some (fadd (fmul e (fexp (fmul fhalf v))) m).
Proof.
  intros Hrandn Hs Hmu Hlogvar eps.
  set (std := tmap fexp (tmap (fmul fhalf) logvar)) in *.
  assert (shape std = shape logvar) as Hstd by done.
  assert (wf std) as Hstdwf by (unfold wf, std; simpl; by rewrite !length_fmap).
  destruct (Hrandn (stream g (cursor g)) std Hstdwf) as [Heps Hepswf].
  fold eps in Heps, Hepswf.
  exists (Tensor (shape mu)
            (zip_with fadd (zip_with fmul (data eps) (data std)) (data mu))).
  assert (length (data std) = numel (shape mu)) as Lstd.
  { unfold std. simpl. rewrite !length_fmap. unfold wf in Hlogvar. congruence. }
  assert (length (data eps) = numel (shape mu)) as Leps.
  { unfold wf in Hepswf. congruence. }
  assert (length (data mu) = numel (shape mu)) as Lmu by done.
  split_and!.
  - unfold reparameterize. fold std. rewrite bind_draw. fold eps.
    rewrite (map2_same_shape fmul eps std), bind_lift_ok by (done || congruence).
    rewrite map2_inplace_same_shape; simpl; [by rewrite Heps, Hstd, Hs|congruence| |done].
    unfold wf in *. simpl. rewrite length_zip_with, !length_fmap, Heps, Hstd.
    rewrite Hs in *. lia.
  - congruence.
  - done.
  - unfold wf in *. simpl. rewrite !length_zip_with, !length_fmap.
    rewrite Hs in *. lia.
  - intros i e m v He Hm Hv. simpl. rewrite !lookup_zip_with, He. simpl.
    unfold std. simpl. rewrite <- list_fmap_compose, list_lookup_fmap, Hv. simpl.
    by rewrite Hm.
Qed.

(** C2. [forward] is the pipeline encode, reparameterize, decode, and
    returns the decoder loss with the [mu] and [logvar] of the encoder;
    an exception of a stage is the exception of [forward]. *)
Theorem forward_pipeline (self : TeacherVAE F) (input_seq decoder_seq target_seq : tensor Z)
    (g : generator N) :
  vae_forward self input_seq decoder_seq target_seq g
  = match encode self input_seq with
    | Err e => Err e
    | Ok (mu, logvar) =>
        match reparameterize self mu logvar g with
        | Err e => Err e
        | Ok (latent_z, g') =>
            match decode self latent_z decoder_seq target_seq with
            | Err e => Err e
            | Ok decoder_loss => Ok ((decoder_loss, mu, logvar), g')
            end
        end
    end.
Proof.
  unfold vae_forward.
  destruct (encode self input_seq) as [[mu logvar]|e]; [|done].
  rewrite bind_lift_ok. unfold mbind at 1, M_bind at 1.
  destruct (reparameterize self mu logvar g) as [[latent_z g']|e]; [|done].
  by destruct (decode self latent_z decoder_seq target_seq).
Qed.

(** C7. [encode] is the encoder's [encoder_train_step]; [decode] is the
    decoder's [decoder_train_step] on [latent_z] repeated
    [n_layers * n_directions] times along the first dimension. *)
Theorem encode_decode_delegate (self : TeacherVAE F) (latent_z : tensor F)
    (input_seq target_seq : tensor Z) :
  let k := n_layers (decoder self) * n_directions (decoder self) in
  encode self input_seq = encoder_train_step (encoder self) input_seq
  ∧ decode self latent_z input_seq target_seq
    = (repeat [k; 1; 1] latent_z
       ≫= λ repeated, decoder_train_step (decoder self) repeated input_seq target_seq)
  ∧ ∀ a b c,
      shape latent_z = [a; b; c] → wf latent_z →
      decode self latent_z input_seq target_seq
      = decoder_train_step (decoder self)
          (Tensor [k * a; b; c] (mjoin (replicate k (data latent_z))))
          input_seq target_seq.
Proof.
  intros k. split_and!.
  - unfold encode. by destruct (encoder_train_step _ _) as [[??]|].
  - unfold decode. fold k. destruct (repeat [k; 1; 1] latent_z); [|done]. simpl.
    by destruct (decoder_train_step _ _ _ _).
  - intros a b c Hs Hwf. unfold decode. fold k.
    rewrite (repeat_first k latent_z a b c) by done. simpl.
    by destruct (decoder_train_step _ _ _ _).
Qed.


(** [generate] raises whenever generation itself succeeds: the length
    of the generator [molecule_gen] is not defined. *)
Lemma generate_never_returns (self : TeacherVAE F) latent_z prime_input end_token
    generate_len temperature (g : generator N) :
  generate self latent_z prime_input end_token generate_len temperature g
  = match generate_from_latent (decoder self) latent_z prime_input end_token
            generate_len temperature g with
    | Ok (generated_batch, _) =>
        match iter generated_batch with
        | Ok _ => Err TypeError
        | Err e => Err e
        end
    | Err e => Err e
    end.
Proof.
  unfold generate. unfold mbind at 1, M_bind at 1.
  destruct (generate_from_latent _ _ _ _ _ _ g) as [[batch g']|e]; [|done].
  by destruct (iter batch).
Qed.
End vae_claims.

(** ** The small instance satisfies the assumptions *)

Lemma toy_cell_rows b : cell_rows (toy_gru b).
Proof.
  split; [simpl; lia|]. intros input_token hidden stack b' Hs. simpl.
  rewrite Hs, length_replicate. simpl. lia.
Qed.

Lemma toy_multinomial_rows : multinomial_rows (F := Z) (N := Z).
Proof.
  intros z dist b v Hs Hv _. exists (Tensor [b; 1] (replicate (b * 1) z)).
  simpl. rewrite Hs. rewrite decide_True by done. split_and!; [done..|].
  unfold wf. simpl. by rewrite length_replicate.
Qed.

Lemma toy_linear_layer b : linear_layer (latent_to_hidden (toy_decoder b)).
Proof. intros t s d Hs. by exists d. Qed.

Lemma toy_randn_like_shape : randn_like_shape (F := Z) (N := Z).
Proof.
  intros z t Hwf. split; [done|]. unfold wf in *. simpl. by rewrite length_replicate.
Qed.

Lemma toy_generation_inputs :
  generation_inputs (toy_decoder 2) (Tensor [1; 2; 1] [0; 0]%Z)
    (Tensor [2] [2; 4]%Z) (Tensor [1] [3]%Z) 2 1.
Proof.
  split_and!; [apply toy_cell_rows|apply toy_multinomial_rows|apply toy_linear_layer
              |by exists 1|done|lia|by left|done|lia].
Qed.

Lemma toy_generation_inputs_single :
  generation_inputs (toy_decoder 1) (Tensor [1; 1; 1] [0]%Z)
    (Tensor [2] [2; 4]%Z) (Tensor [1] [11]%Z) 1 1.
Proof.
  split_and!; [apply toy_cell_rows|apply toy_multinomial_rows|apply toy_linear_layer
              |by exists 1|done|lia|by left|done|done].
Qed.


(** The root directory cannot be written: [save_model] raises there. *)
Example save_model_directory_raises :
  save_model (toy_vae 2) "/" (∅ : gmap string (gmap string (tensor Z)))
  = Err OSError.
Proof. reflexivity. Qed.

(** Two sequences run for the three requested steps although the
    second sampled token is the end token 11; a single sequence stops
    there. *)
Example generate_from_latent_batch_runs :
  generate_from_latent (toy_decoder 2) (Tensor [1; 2; 1] [0; 0]%Z)
    (Tensor [2] [2; 4]%Z) (Tensor [1] [11]%Z) 3 1%Z toy_generator
  = Ok (Tensor [2; 1; 5] [2; 4; 10; 11; 12; 2; 4; 10; 11; 12]%Z,
        Generator (stream toy_generator) 3).
Proof. reflexivity. Qed.

Example generate_from_latent_single_stops :
  generate_from_latent (toy_decoder 1) (Tensor [1; 1; 1] [0]%Z)
    (Tensor [2] [2; 4]%Z) (Tensor [1] [11]%Z) 3 1%Z toy_generator
  = Ok (Tensor [1; 1; 4] [2; 4; 10; 11]%Z, Generator (stream toy_generator) 2).
Proof. reflexivity. Qed.

(** Without priming tokens there is no last token to start from. *)
Example generate_from_latent_empty_prime :
  generate_from_latent (toy_decoder 2) (Tensor [1; 2; 1] [0; 0]%Z)
    (Tensor [0] []) (Tensor [1] [11]%Z) 3 1%Z toy_generator
  = Err IndexError.
Proof. reflexivity. Qed.

(** ** The claims on the small instance *)

Lemma decoder_train_step_sum_witness :
  ∃ inputs targets terms,
    iter (Tensor [3; 2] [1; 2; 3; 4; 5; 6]%Z) = Ok inputs ∧ length inputs = 3
    ∧ iter (Tensor [2; 2] [1; 2; 3; 4]%Z) = Ok targets ∧ length targets = 2
    ∧ terms = zip_with (λ output target_entry,
                          criterion (toy_decoder 2) output (squeeze target_entry))
                (unroll (toy_decoder 2)
                   (latent_to_hidden (toy_decoder 2) (Tensor [1; 2; 1] [0; 0]%Z))
                   (init_stack (toy_decoder 2) None) (take (3 `min` 2) inputs))
                targets
    ∧ length terms = 3 `min` 2
    ∧ decoder_train_step (toy_decoder 2) (Tensor [1; 2; 1] [0; 0]%Z)
        (Tensor [3; 2] [1; 2; 3; 4; 5; 6]%Z) (Tensor [2; 2] [1; 2; 3; 4]%Z)
      = Ok (loss_sum terms).
Proof.
  apply (decoder_train_step_sum (toy_decoder 2) (Tensor [1; 2; 1] [0; 0]%Z)
           (Tensor [3; 2] [1; 2; 3; 4; 5; 6]%Z) (Tensor [2; 2] [1; 2; 3; 4]%Z)
           3 [2] 2 [2]); reflexivity.
Defined.

Lemma generate_from_latent_autoregressive_witness :
  generation_inputs (toy_decoder 1) (Tensor [1; 1; 1] [0]%Z)
    (Tensor [2] [2; 4]%Z) (Tensor [1] [11]%Z) 1 1
  ∧ ∃ toks gen' x,
      generate_from_latent (toy_decoder 1) (Tensor [1; 1; 1] [0]%Z)
        (Tensor [2] [2; 4]%Z) (Tensor [1] [11]%Z) 3 1%Z toy_generator
      = Ok (gen', Generator (stream toy_generator) (cursor toy_generator + length toks))
      ∧ last (data (Tensor [2] [2; 4]%Z)) = Some x
      ∧ sampled_chain (toy_decoder 1) 1%Z 1 (stream toy_generator) (cursor toy_generator)
          (Tensor [1; 1] (replicate 1 x))
          (primed_state (toy_decoder 1) (Tensor [1; 1; 1] [0]%Z) (Tensor [2] [2; 4]%Z) 1 1).1
          (primed_state (toy_decoder 1) (Tensor [1; 1; 1] [0]%Z) (Tensor [2] [2; 4]%Z) 1 1).2
          toks
      ∧ Forall (λ t, shape t = [1; 1] ∧ wf t) toks
      ∧ length toks ≤ 3
      ∧ (1 ≠ 1 → length toks = 3)
      ∧ (1 = 1 → stops_at_end (Tensor [1] [11]%Z) 3 toks)
      ∧ ∀ b, b < 1 →
          chunks (2 + length toks) 1 (data gen') !! b
          = Some (data (Tensor [2] [2; 4]%Z) ++ omap (λ t, data t !! b) toks).
Proof.
  split; [exact toy_generation_inputs_single|].
  apply (generate_from_latent_autoregressive (toy_decoder 1)
           (Tensor [1; 1; 1] [0]%Z) (Tensor [2] [2; 4]%Z) (Tensor [1] [11]%Z)
           3 1%Z toy_generator 1 1).
  exact toy_generation_inputs_single.
Defined.

Lemma generate_from_latent_early_stop_witness :
  generation_inputs (toy_decoder 1) (Tensor [1; 1; 1] [0]%Z)
    (Tensor [2] [2; 4]%Z) (Tensor [1] [11]%Z) 1 1
  ∧ ∃ toks gen' molecules x,
      generate_from_latent (toy_decoder 1) (Tensor [1; 1; 1] [0]%Z)
        (Tensor [2] [2; 4]%Z) (Tensor [1] [11]%Z) 3 1%Z toy_generator
      = Ok (gen', Generator (stream toy_generator) (cursor toy_generator + length toks))
      ∧ last (data (Tensor [2] [2; 4]%Z)) = Some x
      ∧ sampled_chain (toy_decoder 1) 1%Z 1 (stream toy_generator) (cursor toy_generator)
          (Tensor [1; 1] (replicate 1 x))
          (primed_state (toy_decoder 1) (Tensor [1; 1; 1] [0]%Z) (Tensor [2] [2; 4]%Z) 1 1).1
          (primed_state (toy_decoder 1) (Tensor [1; 1; 1] [0]%Z) (Tensor [2] [2; 4]%Z) 1 1).2
          toks
      ∧ Forall (λ t, shape t = [1; 1] ∧ wf t) toks
      ∧ shape gen' = [1; 1; 2 + length toks]
      ∧ iter gen' = Ok molecules
      ∧ length molecules = 1
      ∧ Forall (λ molecule, length (data molecule) = 2 + length toks) molecules
      ∧ (∀ b, b < 1 →
           chunks (2 + length toks) 1 (data gen') !! b
           = Some (data (Tensor [2] [2; 4]%Z) ++ omap (λ t, data t !! b) toks))
      ∧ (1 < 1 → length toks = 3)
      ∧ (1 = 1 → stops_at_end (Tensor [1] [11]%Z) 3 toks).
Proof.
  split; [exact toy_generation_inputs_single|].
  apply (generate_from_latent_early_stop (toy_decoder 1)
           (Tensor [1; 1; 1] [0]%Z) (Tensor [2] [2; 4]%Z) (Tensor [1] [11]%Z)
           3 1%Z toy_generator 1 1).
  exact toy_generation_inputs_single.
Defined.

Lemma generate_from_latent_keeps_prime_witness :
  generation_inputs (toy_decoder 2) (Tensor [1; 2; 1] [0; 0]%Z)
    (Tensor [2] [2; 4]%Z) (Tensor [1] [3]%Z) 2 1
  ∧ ∃ gen' g' molecules,
      generate_from_latent (toy_decoder 2) (Tensor [1; 2; 1] [0; 0]%Z)
        (Tensor [2] [2; 4]%Z) (Tensor [1] [3]%Z) 3 1%Z toy_generator
      = Ok (gen', g')
      ∧ iter gen' = Ok molecules
      ∧ length molecules = 2
      ∧ Forall (λ molecule, take 2 (data molecule) = data (Tensor [2] [2; 4]%Z)) molecules.
Proof.
  split; [exact toy_generation_inputs|].
  apply (generate_from_latent_keeps_prime (toy_decoder 2)
           (Tensor [1; 2; 1] [0; 0]%Z) (Tensor [2] [2; 4]%Z) (Tensor [1] [3]%Z)
           3 1%Z toy_generator 2 1).
  exact toy_generation_inputs.
Defined.

Lemma reparameterize_formula_witness :
  ∃ latent_z,
    reparameterize (toy_vae 2) (Tensor [1; 2] [5; 6]%Z) (Tensor [1; 2] [1; 2]%Z)
      toy_generator
    = Ok (latent_z, Generator (stream toy_generator) 1)
    ∧ latent_z = Tensor [1; 2] [25; 46]%Z.
Proof.
  destruct (reparameterize_formula (toy_vae 2) (Tensor [1; 2] [5; 6]%Z)
              (Tensor [1; 2] [1; 2]%Z) toy_generator toy_randn_like_shape
              eq_refl eq_refl eq_refl) as (latent_z & Hrun & _).
  exists latent_z. split; [exact Hrun|].
  vm_compute in Hrun. by injection Hrun as <-.
Defined.

Lemma encode_decode_delegate_witness :
  decode (toy_vae 2) (Tensor [1; 2; 1] [0; 0]%Z)
    (Tensor [3; 2] [1; 2; 3; 4; 5; 6]%Z) (Tensor [2; 2] [1; 2; 3; 4]%Z)
  = decoder_train_step (decoder (toy_vae 2))
      (Tensor [2; 2; 1] [0; 0; 0; 0]%Z)
      (Tensor [3; 2] [1; 2; 3; 4; 5; 6]%Z) (Tensor [2; 2] [1; 2; 3; 4]%Z).
Proof.
  apply (proj2 (proj2 (encode_decode_delegate (toy_vae 2) (Tensor [1; 2; 1] [0; 0]%Z)
                         (Tensor [3; 2] [1; 2; 3; 4; 5; 6]%Z)
                         (Tensor [2; 2] [1; 2; 3; 4]%Z))) 1 2 1);
    reflexivity.
Defined.


(** C1. [generate] does not return the pair of an iterator and a data
    frame: generation succeeds, and taking the length of the generator
    [molecule_gen] then raises [TypeError]. *)
Theorem generate_raises_type_error :
  is_Ok (generate_from_latent (decoder (toy_vae 2)) (Tensor [1; 2; 1] [0; 0]%Z)
           (Tensor [2] [2; 4]%Z) (Tensor [1] [3]%Z) 3 1%Z toy_generator)
  ∧ generate (toy_vae 2) (Tensor [1; 2; 1] [0; 0]%Z)
      (Tensor [2] [2; 4]%Z) (Tensor [1] [3]%Z) 3 1%Z toy_generator
    = Err TypeError.
Proof. split; [eexists; vm_compute; reflexivity|by vm_compute]. Qed.

(** * Further properties of the module *)

(** ** Further properties of the decoder in training mode *)

Lemma chunks_take {A} size count (l : list A) :
  chunks size count (take (count * size) l) = chunks size count l.
Proof.
  revert l. induction count as [|c IH]; intros l; simpl; [done|].
  rewrite take_take, (Nat.min_l size (size + c * size)) by lia. f_equal.
  by rewrite <- take_drop_commute, IH.
Qed.

Lemma chunks_take_count {A} size c n (l : list A) :
  c ≤ n → chunks size c l = take c (chunks size n l).
Proof.
  revert n l. induction c as [|c IH]; intros n l Hc; simpl; [done|].
  destruct n as [|n]; [lia|]. simpl. f_equal. apply IH. lia.
Qed.

Section train_extras.
Context {F : Type} `{!Float F}.

Lemma iadd_tensor (l : list F) (x : F) :
  ∃ y, foldl iadd (LossTensor x) l = LossTensor y.
Proof.
  revert x. induction l as [|z l IH]; intros x; simpl; [by eexists|]. apply IH.
Qed.

(** The loop of [decoder_train_step] on the entries of two iterable
    tensors. *)
Lemma decoder_train_step_entries (self : StackGRUDecoder F) latent_z
    input_seq target_seq n1 s1 n2 s2 :
  shape input_seq = n1 :: s1 → shape target_seq = n2 :: s2 →
  let inputs := Tensor s1 <$> chunks (numel s1) n1 (data input_seq) in
  let targets := Tensor s2 <$> chunks (numel s2) n2 (data target_seq) in
  decoder_train_step self latent_z input_seq target_seq
  = Ok (total_loss
          (zip_with (λ output target_entry, criterion self output (squeeze target_entry))
             (unroll self (latent_to_hidden self latent_z) (init_stack self None)
                (zip inputs targets).*1)
             (zip inputs targets).*2)).
Proof.
  intros Hi Ht inputs targets.
  unfold decoder_train_step, iter. rewrite Hi, Ht. simpl. fold inputs targets.
  pose proof (foldl_decoder_loop self (zip inputs targets) (LossInt 0)
                (latent_to_hidden self latent_z) (init_stack self None)) as Hloop.
  destruct (foldl _ _ (zip inputs targets)) as [[loss hidden] stack].
  simpl in Hloop. by rewrite Hloop.
Qed.

(** X1. [decoder_train_step] returns the Python integer 0, not a tensor,
    exactly when one of the two sequences has no entry; as soon as one
    step is made the loss is a tensor. *)
Theorem decoder_train_step_loss_kind (self : StackGRUDecoder F) latent_z
    input_seq target_seq n1 s1 n2 s2 :
  shape input_seq = n1 :: s1 → shape target_seq = n2 :: s2 →
  (n1 `min` n2 = 0 →
     decoder_train_step self latent_z input_seq target_seq = Ok (LossInt 0))
  ∧ (0 < n1 `min` n2 →
     ∃ x, decoder_train_step self latent_z input_seq target_seq = Ok (LossTensor x)).
Proof.
  intros Hi Ht.
  rewrite (decoder_train_step_entries self latent_z input_seq target_seq n1 s1 n2 s2)
    by done.
  set (inputs := Tensor s1 <$> chunks (numel s1) n1 (data input_seq)).
  set (targets := Tensor s2 <$> chunks (numel s2) n2 (data target_seq)).
  assert (length inputs = n1) as Hn1 by (unfold inputs; by rewrite length_fmap, length_chunks).
  assert (length targets = n2) as Hn2 by (unfold targets; by rewrite length_fmap, length_chunks).
  split; intros Hmin.
  - assert (zip inputs targets = []) as ->; [|done].
    apply length_zero_iff_nil. rewrite length_zip_with. lia.
  - destruct inputs as [|x inputs]; [simpl in Hn1; lia|].
    destruct targets as [|t targets]; [simpl in Hn2; lia|].
    simpl. destruct (forward self x _ _) as [[o h] s]. simpl.
    unfold total_loss. simpl.
    edestruct iadd_tensor as [y Hy]. exists y. by rewrite Hy.
Qed.

(** X2. [decoder_train_step] makes no step on the input entries beyond
    the length of the target sequence: on an input sequence cut to that
    length the result is the same. *)
Theorem decoder_train_step_ignores_surplus (self : StackGRUDecoder F) latent_z
    input_seq target_seq n1 s1 n2 s2 :
  shape input_seq = n1 :: s1 → shape target_seq = n2 :: s2 → n2 ≤ n1 →
  ∃ cut,
    slice None (Some (Z.of_nat n2)) input_seq = Ok cut
    ∧ shape cut = n2 :: s1
    ∧ decoder_train_step self latent_z cut target_seq
      = decoder_train_step self latent_z input_seq target_seq.
Proof.
  intros Hi Ht Hle.
  exists (Tensor (n2 :: s1) (take (n2 * numel s1) (data input_seq))).
  split_and!; [|done|].
  - unfold slice, slice_bound. rewrite Hi. simpl.
    rewrite decide_False by lia.
    replace (Z.to_nat (0 `max` (Z.of_nat n2 `min` Z.of_nat n1))) with n2 by lia.
    by rewrite Nat.sub_0_r, drop_0.
  - rewrite (decoder_train_step_entries self latent_z input_seq target_seq n1 s1 n2 s2)
      by done.
    rewrite (decoder_train_step_entries self latent_z _ target_seq n2 s1 n2 s2) by done.
    simpl. rewrite chunks_take.
    set (targets := Tensor s2 <$> chunks (numel s2) n2 (data target_seq)).
    assert (length targets = n2) as Hn2
      by (unfold targets; by rewrite length_fmap, length_chunks).
    rewrite (chunks_take_count (numel s1) n2 n1) by done.
    rewrite fmap_take.
    assert (∀ X : list (tensor Z), zip (take n2 X) targets = zip X targets) as Hzip.
    { intros X. unfold zip. rewrite <- Hn2. apply zip_with_take_l. }
    by rewrite Hzip.
Qed.
End train_extras.

Lemma decoder_train_step_loss_kind_witness :
  (3 `min` 2 = 0 →
     decoder_train_step (toy_decoder 2) (Tensor [1; 2; 1] [0; 0]%Z)
       (Tensor [3; 2] [1; 2; 3; 4; 5; 6]%Z) (Tensor [2; 2] [1; 2; 3; 4]%Z)
     = Ok (LossInt 0))
  ∧ (0 < 3 `min` 2 →
     ∃ x, decoder_train_step (toy_decoder 2) (Tensor [1; 2; 1] [0; 0]%Z)
            (Tensor [3; 2] [1; 2; 3; 4; 5; 6]%Z) (Tensor [2; 2] [1; 2; 3; 4]%Z)
          = Ok (LossTensor x)).
Proof.
  apply (decoder_train_step_loss_kind (toy_decoder 2) (Tensor [1; 2; 1] [0; 0]%Z)
           (Tensor [3; 2] [1; 2; 3; 4; 5; 6]%Z) (Tensor [2; 2] [1; 2; 3; 4]%Z)
           3 [2] 2 [2]); reflexivity.
Defined.

Lemma decoder_train_step_ignores_surplus_witness :
  ∃ cut,
    slice None (Some 2%Z) (Tensor [3; 2] [1; 2; 3; 4; 5; 6]%Z) = Ok cut
    ∧ shape cut = [2; 2]
    ∧ decoder_train_step (toy_decoder 2) (Tensor [1; 2; 1] [0; 0]%Z) cut
        (Tensor [2; 2] [1; 2; 3; 4]%Z)
      = decoder_train_step (toy_decoder 2) (Tensor [1; 2; 1] [0; 0]%Z)
          (Tensor [3; 2] [1; 2; 3; 4; 5; 6]%Z) (Tensor [2; 2] [1; 2; 3; 4]%Z).
Proof.
  apply (decoder_train_step_ignores_surplus (toy_decoder 2) (Tensor [1; 2; 1] [0; 0]%Z)
           (Tensor [3; 2] [1; 2; 3; 4; 5; 6]%Z) (Tensor [2; 2] [1; 2; 3; 4]%Z)
           3 [2] 2 [2]); [reflexivity|reflexivity|lia].
Defined.

(** ** Further properties of the encoder *)

Lemma view_size_mismatch {A} (s : list nat) (t : tensor A) :
  numel s ≠ length (data t) → view (Some <$> s) t = Err RuntimeError.
Proof.
  intros Hn. unfold view, infer_size.
  assert (omap id (Some <$> s) = s) as ->.
  { clear Hn. induction s as [|d s IH]; [done|]. simpl. f_equal. exact IH. }
  rewrite length_fmap, Nat.sub_diag. by rewrite decide_False.
Qed.

Section encoder_extras.
Context {F : Type} `{!Float F}.

Lemma directions_concatenated_single (self : StackGRU F) (hidden : tensor F) :
  batch_size self = 1 →
  length (data hidden) = n_layers self * (n_directions self * hidden_size self) →
  0 < n_layers self →
  directions_concatenated self hidden
  = Some (Tensor [batch_size self; hidden_size self * n_directions self]
            (take (n_directions self * (batch_size self * hidden_size self))
               (drop ((n_layers self - 1)
                      * (n_directions self * (batch_size self * hidden_size self)))
                  (data hidden)))).
Proof.
  intros HB Hlen Hlayers. unfold directions_concatenated. rewrite HB.
  set (off := (n_layers self - 1) * (n_directions self * (1 * hidden_size self))).
  assert ((b ← seq 0 1; d ← seq 0 (n_directions self); k ← seq 0 (hidden_size self);
           [ravel [n_layers self; n_directions self; 1; hidden_size self]
                  [n_layers self - 1; d; b; k]])
          = (λ j, off + j) <$> seq 0 (n_directions self * hidden_size self)) as ->.
  { rewrite <- seq_bind_rows. simpl. rewrite app_nil_r.
    apply list_bind_ext; [|done]. intros d.
    apply list_bind_ext; [|done]. intros k.
    unfold off. f_equal. simpl. lia. }
  rewrite gather_block by (unfold off; nia). simpl.
  by rewrite !Nat.add_0_r.
Qed.

(** X3. [encoder_train_step] runs the cell over the entries of the input
    sequence from the initial hidden state and stack, and returns the two
    projections of one and the same tensor: the last
    [n_directions * batch_size * hidden_size] elements of the final hidden
    state, as [batch_size] rows of [hidden_size * n_directions]. *)
Theorem encoder_train_step_projects_last_block (self : StackGRUEncoder F) input_seq n s :
  shape input_seq = n :: s →
  let entries := Tensor s <$> chunks (numel s) n (data input_seq) in
  let hidden := (final_state self (init_hidden self) (init_stack self None) entries).1 in
  let block := n_directions self * (batch_size self * hidden_size self) in
  length (data hidden) = n_layers self * block → 0 < n_layers self →
  ∃ last_layer,
    iter input_seq = Ok entries ∧ length entries = n
    ∧ data last_layer = drop ((n_layers self - 1) * block) (data hidden)
    ∧ shape last_layer = [batch_size self; hidden_size self * n_directions self]
    ∧ wf last_layer
    ∧ encoder_train_step self input_seq
      = Ok (hidden_to_mu self last_layer, hidden_to_logvar self last_layer).
Proof.
  intros Hs entries hidden block Hlen Hlayers.
  destruct (encoder_train_step_spec self input_seq n s Hs Hlen Hlayers) as [Hn Hrun].
  eexists. split_and!; [|done| | | |exact Hrun].
  - unfold iter. by rewrite Hs.
  - simpl. fold entries hidden block. apply take_ge.
    rewrite length_drop, Hlen. nia.
  - done.
  - unfold wf. simpl. fold entries hidden block.
    rewrite length_take, length_drop, Hlen. unfold block. nia.
Qed.

(** X4. With a single direction or a single sequence in the batch, the
    tensor that [encoder_train_step] projects is the last layer of the
    final hidden state with, for every sequence, its directions
    concatenated. *)
Theorem encoder_train_step_concatenates (self : StackGRUEncoder F) input_seq n s :
  shape input_seq = n :: s →
  let entries := Tensor s <$> chunks (numel s) n (data input_seq) in
  let hidden := (final_state self (init_hidden self) (init_stack self None) entries).1 in
  length (data hidden)
  = n_layers self * (n_directions self * (batch_size self * hidden_size self)) →
  0 < n_layers self →
  n_directions self = 1 ∨ batch_size self = 1 →
  ∃ last_layer,
    directions_concatenated self hidden = Some last_layer
    ∧ encoder_train_step self input_seq
      = Ok (hidden_to_mu self last_layer, hidden_to_logvar self last_layer).
Proof.
  intros Hs entries hidden Hlen Hlayers Hone.
  destruct (encoder_train_step_spec self input_seq n s Hs Hlen Hlayers) as [_ Hrun].
  eexists. split; [|exact Hrun].
  destruct Hone as [HD|HB].
  - apply directions_concatenated_unidirectional; [done| |done].
    fold entries hidden. rewrite Hlen, HD. lia.
  - apply directions_concatenated_single; [done| |done].
    fold entries hidden. rewrite Hlen, HB. lia.
Qed.

(** X5. When the final hidden state does not hold
    [n_layers * n_directions * batch_size * hidden_size] elements, as when
    the batch differs from the [batch_size] the encoder was built with,
    [encoder_train_step] raises [RuntimeError] from its first [view]. *)
Theorem encoder_train_step_size_mismatch (self : StackGRUEncoder F) input_seq n s :
  shape input_seq = n :: s →
  let entries := Tensor s <$> chunks (numel s) n (data input_seq) in
  let hidden := (final_state self (init_hidden self) (init_stack self None) entries).1 in
  length (data hidden)
  ≠ n_layers self * (n_directions self * (batch_size self * hidden_size self)) →
  encoder_train_step self input_seq = Err RuntimeError.
Proof.
  intros Hs entries hidden Hlen.
  unfold encoder_train_step, iter. rewrite Hs. simpl. fold entries.
  rewrite foldl_final_state.
  destruct (final_state self (init_hidden self) (init_stack self None) entries)
    as [h st] eqn:Hfinal.
  subst hidden. simpl in *.
  rewrite (view_size_mismatch
             [n_layers self; n_directions self; batch_size self; hidden_size self]);
    [done|]. simpl. rewrite Nat.mul_1_r. congruence.
Qed.
End encoder_extras.

Lemma encoder_train_step_projects_last_block_witness :
  ∃ last_layer,
    iter (Tensor [2; 2] [1; 2; 3; 4]%Z)
    = Ok (Tensor [2] <$> chunks (numel [2]) 2 (data (Tensor [2; 2] [1; 2; 3; 4]%Z)))
    ∧ length (Tensor [2] <$> chunks (numel [2]) 2 (data (Tensor [2; 2] [1; 2; 3; 4]%Z))) = 2
    ∧ data last_layer = [2; 3; 4; 5]%Z
    ∧ shape last_layer = [2; 2]
    ∧ wf last_layer
    ∧ encoder_train_step (toy_encoder 2) (Tensor [2; 2] [1; 2; 3; 4]%Z)
      = Ok (hidden_to_mu (toy_encoder 2) last_layer,
            hidden_to_logvar (toy_encoder 2) last_layer).
Proof.
  apply (encoder_train_step_projects_last_block (toy_encoder 2)
           (Tensor [2; 2] [1; 2; 3; 4]%Z) 2 [2]); [reflexivity|reflexivity|simpl; lia].
Defined.

Lemma encoder_train_step_concatenates_witness :
  ∃ last_layer,
    directions_concatenated (toy_encoder 1)
      (final_state (toy_encoder 1) (init_hidden (toy_encoder 1))
         (init_stack (toy_encoder 1) None)
         [Tensor [1] [7]%Z; Tensor [1] [8]%Z]).1
    = Some last_layer
    ∧ encoder_train_step (toy_encoder 1) (Tensor [2; 1] [7; 8]%Z)
      = Ok (hidden_to_mu (toy_encoder 1) last_layer,
            hidden_to_logvar (toy_encoder 1) last_layer).
Proof.
  apply (encoder_train_step_concatenates (toy_encoder 1) (Tensor [2; 1] [7; 8]%Z) 2 [1]);
    [reflexivity|reflexivity|simpl; lia|right; reflexivity].
Defined.

Lemma encoder_train_step_size_mismatch_witness :
  encoder_train_step (toy_encoder_sized 2 3) (Tensor [2; 2] [1; 2; 3; 4]%Z)
  = Err RuntimeError.
Proof.
  apply (encoder_train_step_size_mismatch (toy_encoder_sized 2 3)
           (Tensor [2; 2] [1; 2; 3; 4]%Z) 2 [2]); [reflexivity|simpl; lia].
Defined.

(** ** Further properties of generation *)

Section generation_extras.
Context {F N : Type} `{!Float F, !Sampler F N}.

Lemma bind_ext {A B} (m : M N A) (f h : A → M N B) (g : generator N) :
  (∀ a g', f a g' = h a g') → (m ≫= f) g = (m ≫= h) g.
Proof.
  intros Hfh. unfold mbind, M_bind. destruct (m g) as [[a g']|e]; [apply Hfh|done].
Qed.

(** X6. Without priming tokens [generate_from_latent] raises
    [IndexError]: there is no last priming token to start from. *)
Theorem generate_from_latent_empty_prime_raises (self : StackGRUDecoder F)
    latent_z prime_input end_token generate_len temperature (g : generator N) a B d :
  linear_layer (latent_to_hidden self) →
  shape latent_z = [a; B; d] → wf latent_z → 0 < B →
  shape prime_input = [0] ∨ shape prime_input = [1; 0] → wf prime_input →
  generate_from_latent self latent_z prime_input end_token generate_len temperature g
  = Err IndexError.
Proof.
  intros Hlin Hz Hzwf HB Hps Hpwf.
  set (k := n_layers self * n_directions self).
  destruct (Hlin (Tensor [k * a; B; d] (mjoin (replicate k (data latent_z))))
              [k * a; B] d eq_refl) as [d' Hhs].
  assert (data prime_input = []) as Hpd.
  { apply length_zero_iff_nil. unfold wf in Hpwf.
    destruct Hps as [Hps|Hps]; rewrite Hps in Hpwf; simpl in Hpwf; lia. }
  unfold generate_from_latent. fold k.
  rewrite (repeat_first _ _ a B d), bind_lift_ok by done.
  set (hidden := latent_to_hidden self _) in *.
  assert (shape_at hidden 1 = Ok B) as -> by (unfold shape_at; by rewrite Hhs).
  rewrite bind_lift_ok.
  rewrite (repeat_rows _ _ 0), bind_lift_ok by done.
  rewrite Hpd.
  rewrite (transpose_rows [] B 0), bind_lift_ok by done.
  change (len (Tensor [B; 0] ?l)) with (@Ok nat B). rewrite bind_lift_ok.
  rewrite (view_prime _ 0 B), bind_lift_ok by done.
  rewrite (transpose_columns [] B 0), bind_lift_ok by done.
  done.
Qed.
End generation_extras.

Lemma gather_length {A} (l r : list A) idxs :
  gather l idxs = Some r → length r = length idxs.
Proof.
  unfold gather. intros Hg. by apply length_mapM in Hg.
Qed.

Lemma map2_errors {A B C} (f : A → B → C) (a : tensor A) (b : tensor B) e :
  map2 f a b = Err e → e = RuntimeError.
Proof.
  unfold map2. destruct (bshape _ _) as [r|]; [|by intros [= <-]].
  destruct (gather (data a) _) as [xs|]; simpl; [|by intros [= <-]].
  destruct (gather (data b) _) as [ys|]; simpl; [done|by intros [= <-]].
Qed.

Lemma map2_numel {A B C} (f : A → B → C) (a : tensor A) (b : tensor B) r out :
  bshape (reverse (shape a)) (reverse (shape b)) = Some out →
  map2 f a b = Ok r → length (data r) = numel (reverse out).
Proof.
  unfold map2. intros ->.
  destruct (gather (data a) _) as [xs|] eqn:Hx; simpl; [|done].
  destruct (gather (data b) _) as [ys|] eqn:Hy; simpl; [|done].
  intros [= <-]. simpl. apply gather_length in Hx, Hy.
  rewrite length_fmap, length_seq in Hx, Hy.
  rewrite length_zip_with, Hx, Hy. lia.
Qed.

Section generation_extras2.
Context {F N : Type} `{!Float F, !Sampler F N}.

(** [generate_from_latent] up to its sampling loop. *)
Lemma generate_from_latent_prelude (self : StackGRUDecoder F) latent_z prime_input
    end_token generate_len temperature (g : generator N) a B d L p x :
  linear_layer (latent_to_hidden self) →
  shape latent_z = [a; B; d] → wf latent_z → 0 < B →
  shape prime_input = [S L] ∨ shape prime_input = [1; S L] →
  data prime_input = p ++ [x] → length p = L →
  let k := n_layers self * n_directions self in
  let hidden := latent_to_hidden self
                  (Tensor [k * a; B; d] (mjoin (replicate k (data latent_z)))) in
  let start := final_state self hidden (init_stack self (Some B))
                 ((λ y, Tensor [1; B] (replicate B y)) <$> p) in
  generate_from_latent self latent_z prime_input end_token generate_len temperature g
  = generation_loop self end_token temperature B generate_len
      (Tensor [B; 1; S L] (mjoin (replicate B (data prime_input))),
       Tensor [1; B] (replicate B x), start.1, start.2) g.
Proof.
  intros Hlin Hz Hzwf HB Hps Hpd Hp k hidden start.
  assert (wf prime_input) as Hpwf.
  { unfold wf. rewrite Hpd, length_app. simpl.
    destruct Hps as [-> | ->]; simpl; lia. }
  destruct (Hlin (Tensor [k * a; B; d] (mjoin (replicate k (data latent_z))))
              [k * a; B] d eq_refl) as [d' Hhs].
  fold hidden in Hhs.
  unfold generate_from_latent.
  rewrite (repeat_first _ _ a B d), bind_lift_ok by done.
  fold k hidden.
  assert (shape_at hidden 1 = Ok B) as -> by (unfold shape_at; by rewrite Hhs).
  rewrite bind_lift_ok.
  rewrite (repeat_rows _ _ (S L)), bind_lift_ok by done.
  rewrite Hpd.
  rewrite transpose_rows, bind_lift_ok by (rewrite ?length_app; simpl; lia).
  change (len (Tensor [B; S L] ?l)) with (@Ok nat B). rewrite bind_lift_ok.
  rewrite view_prime, bind_lift_ok
    by (rewrite ?length_bind_replicate, ?length_app; simpl; lia).
  rewrite transpose_columns, bind_lift_ok by (rewrite ?length_app; simpl; lia).
  rewrite (slice_init_iter p x L B), bind_lift_ok by done.
  rewrite foldl_final_state. fold start.
  destruct start as [hidden0 stack0] eqn:Hstart.
  by rewrite (getitem_last p x L B), bind_lift_ok by done.
Qed.

(** X7. With [generate_len = 0] nothing is sampled: the call returns the
    priming tokens, once per sequence of the batch, and leaves the
    generator where it was. *)
Theorem generate_from_latent_nothing_to_generate (self : StackGRUDecoder F)
    latent_z prime_input end_token temperature (g : generator N) a B d L :
  linear_layer (latent_to_hidden self) →
  shape latent_z = [a; B; d] → wf latent_z → 0 < B →
  shape prime_input = [S L] ∨ shape prime_input = [1; S L] → wf prime_input →
  generate_from_latent self latent_z prime_input end_token 0 temperature g
  = Ok (Tensor [B; 1; S L] (mjoin (replicate B (data prime_input))), g).
Proof.
  intros Hlin Hz Hzwf HB Hps Hpwf.
  assert (length (data prime_input) = S L) as Hlen.
  { unfold wf in Hpwf. destruct Hps as [Hps|Hps]; rewrite Hps in Hpwf;
      simpl in Hpwf; lia. }
  destruct (list_snoc_inv _ _ Hlen) as (p & x & Hpd & Hp).
  by rewrite (generate_from_latent_prelude self latent_z prime_input end_token 0
                temperature g a B d L p x).
Qed.

Lemma generation_loop_end_token (self : StackGRUDecoder F) e1 e2 temperature B n st
    (g : generator N) :
  B ≠ 1 →
  generation_loop self e1 temperature B n st g
  = generation_loop self e2 temperature B n st g.
Proof.
  intros HB. revert st g. induction n as [|n IH]; intros st g; [done|].
  rewrite !generation_loop_S.
  destruct (sample_step self temperature B st g) as [[[top st'] g1]|]; [|done].
  rewrite !end_reached_batch by done. apply IH.
Qed.

(** X8. When the latent tensor holds a batch of any size but one, the
    result of [generate_from_latent], exception included, does not
    depend on [end_token]: the end token is never looked at. *)
Theorem generate_from_latent_ignores_end_token (self : StackGRUDecoder F)
    latent_z prime_input e1 e2 generate_len temperature (g : generator N) a B d :
  linear_layer (latent_to_hidden self) →
  shape latent_z = [a; B; d] → wf latent_z → B ≠ 1 →
  generate_from_latent self latent_z prime_input e1 generate_len temperature g
  = generate_from_latent self latent_z prime_input e2 generate_len temperature g.
Proof.
  intros Hlin Hz Hzwf HB.
  set (k := n_layers self * n_directions self).
  destruct (Hlin (Tensor [k * a; B; d] (mjoin (replicate k (data latent_z))))
              [k * a; B] d eq_refl) as [d' Hhs].
  unfold generate_from_latent. fold k.
  rewrite (repeat_first _ _ a B d), !bind_lift_ok by done.
  set (hidden := latent_to_hidden self _) in *.
  assert (shape_at hidden 1 = Ok B) as -> by (unfold shape_at; by rewrite Hhs).
  rewrite !bind_lift_ok.
  do 6 (apply bind_ext; intros ? ?).
  destruct (foldl _ _ _) as [h s].
  apply bind_ext. intros input_token gen.
  by apply generation_loop_end_token.
Qed.

Lemma end_reached_ambiguous (x : Z) (end_token : tensor Z) m :
  shape end_token = [m] → m ≠ 1 →
  end_reached 1 (Tensor [1; 1] [x]) end_token = Err RuntimeError.
Proof.
  intros Hs Hm. unfold end_reached. rewrite decide_True by done.
  destruct (map2 Z.eqb (Tensor [1; 1] [x]) end_token) as [r|e] eqn:Hmap.
  - apply (map2_numel _ _ _ _ [m; 1]) in Hmap.
    + simpl. unfold tensor_bool. simpl in Hmap.
      destruct (data r) as [|? [|??]]; simpl in *; try done. lia.
    + rewrite Hs. simpl. by rewrite decide_False by lia.
  - simpl. apply map2_errors in Hmap. by subst.
Qed.

(** X9. With a single sequence the sampled token is compared with
    [end_token]: an [end_token] of several indices makes the first
    sampling step raise [RuntimeError], the truth value of the comparison
    being undefined. *)
Theorem generate_from_latent_ambiguous_end_token (self : StackGRUDecoder F)
    latent_z prime_input end_token generate_len temperature (g : generator N) a d L m :
  cell_rows self → multinomial_rows → linear_layer (latent_to_hidden self) →
  shape latent_z = [a; 1; d] → wf latent_z →
  shape prime_input = [S L] ∨ shape prime_input = [1; S L] → wf prime_input →
  shape end_token = [m] → 1 < m → 0 < generate_len →
  generate_from_latent self latent_z prime_input end_token generate_len temperature g
  = Err RuntimeError.
Proof.
  intros Hcell Hmult Hlin Hz Hzwf Hps Hpwf Hes Hm Hn.
  assert (length (data prime_input) = S L) as Hlen.
  { unfold wf in Hpwf. destruct Hps as [Hps|Hps]; rewrite Hps in Hpwf;
      simpl in Hpwf; lia. }
  destruct (list_snoc_inv _ _ Hlen) as (p & x & Hpd & Hp).
  rewrite (generate_from_latent_prelude self latent_z prime_input end_token
             generate_len temperature g a 1 d L p x) by (done || lia).
  destruct generate_len as [|n]; [lia|].
  rewrite generation_loop_S.
  edestruct (sample_step_ok self temperature 1) as (o & h' & s' & td & _ & Htd & _ & _ & ->);
    [done|done|lia|reflexivity| |reflexivity|].
  { unfold wf. simpl. rewrite app_nil_r, Hlen. lia. }
  destruct td as [|t [|??]]; try done.
  by rewrite (end_reached_ambiguous t end_token m) by (done || lia).
Qed.

(** X10. The two documented forms of [prime_input], of sizes
    [prime_input length] and [1, prime_input length], give the same
    result. *)
Theorem generate_from_latent_prime_forms (self : StackGRUDecoder F)
    latent_z (tokens : list Z) end_token generate_len temperature (g : generator N) L :
  generate_from_latent self latent_z (Tensor [L] tokens) end_token generate_len
    temperature g
  = generate_from_latent self latent_z (Tensor [1; L] tokens) end_token generate_len
      temperature g.
Proof. reflexivity. Qed.
End generation_extras2.

Section generation_extras3.
Context {F N : Type} `{!Float F, !Sampler F N}.

(** Two chains sampled from the same state and draw agree as far as the
    shorter one goes. *)
Lemma sampled_chain_prefix (self : StackGRUDecoder F) temperature B noise c
    input_token hidden stack toks1 toks2 :
  sampled_chain self temperature B noise c input_token hidden stack toks1 →
  sampled_chain self temperature B noise c input_token hidden stack toks2 →
  length toks1 ≤ length toks2 → toks1 `prefix_of` toks2.
Proof.
  intros H1. revert toks2.
  induction H1 as [|c inp h s o h' s' rows top inp' toks Hfw Hview Hm Hrow _ IH];
    intros toks2 H2 Hlen; [apply prefix_nil|].
  inversion H2 as [|? ? ? ? o2 h2 s2 rows2 top2 inp2 toks' Hfw2 Hview2 Hm2 Hrow2 Hrest];
    subst; [simpl in Hlen; lia|].
  rewrite Hfw in Hfw2. injection Hfw2 as <- <- <-.
  rewrite Hview in Hview2. injection Hview2 as <-.
  rewrite Hm in Hm2. injection Hm2 as <-.
  rewrite Hrow in Hrow2. injection Hrow2 as <-.
  apply prefix_cons, IH; [done|]. simpl in Hlen. lia.
Qed.

(** X11. For the same inputs and generator state, asking for one more
    token only extends the sequences: every sequence generated with
    [generate_len = n] is a prefix of the sequence generated in its place
    with [generate_len = n + 1]. *)
Theorem generate_from_latent_extends (self : StackGRUDecoder F)
    latent_z prime_input end_token n temperature (g : generator N) B L :
  generation_inputs self latent_z prime_input end_token B L →
  ∃ gen1 g1 gen2 g2 molecules1 molecules2,
    generate_from_latent self latent_z prime_input end_token n temperature g
    = Ok (gen1, g1)
    ∧ generate_from_latent self latent_z prime_input end_token (S n) temperature g
      = Ok (gen2, g2)
    ∧ iter gen1 = Ok molecules1 ∧ iter gen2 = Ok molecules2
    ∧ length molecules1 = B ∧ length molecules2 = B
    ∧ ∀ b m1 m2,
        molecules1 !! b = Some m1 → molecules2 !! b = Some m2 →
        data m1 `prefix_of` data m2.
Proof.
  intros Hin.
  destruct (generate_from_latent_spec self latent_z prime_input end_token
              n temperature g B L Hin)
    as (toks1 & gen1 & x1 & Hrun1 & Hx1 & Hchain1 & _ & Hle1 & Hbatch1 & Hsingle1
        & Hs1 & Hwf1 & Hrows1).
  destruct (generate_from_latent_spec self latent_z prime_input end_token
              (S n) temperature g B L Hin)
    as (toks2 & gen2 & x2 & Hrun2 & Hx2 & Hchain2 & _ & Hle2 & Hbatch2 & Hsingle2
        & Hs2 & Hwf2 & Hrows2).
  assert (x2 = x1) as -> by congruence.
  assert (toks1 `prefix_of` toks2) as [rest ->].
  { destruct (decide (length toks1 ≤ length toks2)) as [Hlen|Hlen];
      [by eapply sampled_chain_prefix|].
    exfalso.
    assert (B = 1) as HB.
    { destruct (decide (B = 1)); [done|]. rewrite Hbatch1, Hbatch2 in Hlen by done. lia. }
    destruct (Hsingle1 HB) as [Hbefore _].
    destruct (Hsingle2 HB) as [_ Hlast].
    destruct Hlast as (t & Ht & Hdata); [lia|].
    assert (toks2 `prefix_of` toks1) as [rest ->]
      by (eapply sampled_chain_prefix; [done..|lia]).
    rewrite length_app in Hlen.
    apply last_Some in Ht as [toks ->].
    apply (Hbefore (length toks) t); [|rewrite !length_app in *; simpl in *; lia|done].
    rewrite <- app_assoc. simpl. by apply list_lookup_middle. }
  exists gen1, (Generator (stream g) (cursor g + length toks1)),
         gen2, (Generator (stream g) (cursor g + length (toks1 ++ rest))),
         (Tensor [1; S L + length toks1]
            <$> chunks (S L + length toks1) B (data gen1)),
         (Tensor [1; S L + length (toks1 ++ rest)]
            <$> chunks (S L + length (toks1 ++ rest)) B (data gen2)).
  split_and!; [done|done|by apply iter_rows|by apply iter_rows
              |by rewrite length_fmap, length_chunks
              |by rewrite length_fmap, length_chunks|].
  intros b m1 m2 Hm1 Hm2.
  assert (b < B) as Hb.
  { apply lookup_lt_Some in Hm1. by rewrite length_fmap, length_chunks in Hm1. }
  rewrite list_lookup_fmap, (Hrows1 b Hb) in Hm1.
  rewrite list_lookup_fmap, (Hrows2 b Hb) in Hm2.
  simpl in Hm1, Hm2. injection Hm1 as <-. injection Hm2 as <-. simpl.
  apply prefix_app. rewrite omap_app. by apply prefix_app_r.
Qed.

(** X12. On the documented inputs [generate] raises [TypeError]: the
    generation itself succeeds and the returned tensor is iterable, but
    the length of the generator over its molecules is not defined. *)
Theorem generate_raises_on_documented_inputs (self : TeacherVAE F)
    latent_z prime_input end_token generate_len temperature (g : generator N) B L :
  generation_inputs (decoder self) latent_z prime_input end_token B L →
  generate self latent_z prime_input end_token generate_len temperature g
  = Err TypeError.
Proof.
  intros Hin.
  destruct (generate_from_latent_spec (decoder self) latent_z prime_input end_token
              generate_len temperature g B L Hin)
    as (toks & gen' & x & Hrun & _ & _ & _ & _ & _ & _ & Hs & _).
  rewrite generate_never_returns, Hrun.
  by rewrite (iter_rows gen' B (S L + length toks)).
Qed.
End generation_extras3.

(** ** Further properties of the variational autoencoder *)

Lemma map2_inplace_shape {A B} (f : A → B → A) (a : tensor A) (b : tensor B) r :
  map2_ f a b = Ok r → shape r = shape a.
Proof.
  unfold map2_. destruct (map2 f a b) as [r'|]; simpl; [|done].
  case_decide; [|done]. by intros [= <-].
Qed.

Lemma map2_inplace_errors {A B} (f : A → B → A) (a : tensor A) (b : tensor B) e :
  map2_ f a b = Err e → e = RuntimeError.
Proof.
  unfold map2_. destruct (map2 f a b) as [r'|e'] eqn:Hmap; simpl.
  - case_decide; [done|]. by intros [= <-].
  - intros [= <-]. by eapply map2_errors.
Qed.

Lemma repeat_first_matrix {A} (k : nat) (t : tensor A) b c :
  shape t = [b; c] → wf t →
  repeat [k; 1; 1] t = Ok (Tensor [k; b; c] (mjoin (replicate k (data t)))).
Proof.
  unfold wf, repeat. intros Hs Hwf. rewrite Hs in *.
  rewrite decide_True by (simpl; lia).
  change (replicate _ 1 ++ [b; c]) with [1; b; c].
  rewrite tile_first; [|by repeat constructor|done|simpl in *; lia].
  simpl. by rewrite !Nat.add_0_r, Nat.mul_1_r.
Qed.

Section vae_extras.
Context {F N B : Type} `{!Float F, !Sampler F N, !Pickle F B}.

(** [reparameterize] on tensors of equal sizes. *)
Lemma reparameterize_same_shape (self : TeacherVAE F) (mu logvar : tensor F)
    (g : generator N) :
  randn_like_shape → shape mu = shape logvar → wf mu → wf logvar →
  let std := tmap fexp (tmap (fmul fhalf) logvar) in
  let eps := randn_like (stream g (cursor g)) std in
  reparameterize self mu logvar g
  = Ok (Tensor (shape mu) (zip_with fadd (zip_with fmul (data eps) (data std)) (data mu)),
        Generator (stream g) (S (cursor g)))
  ∧ length (zip_with fadd (zip_with fmul (data eps) (data std)) (data mu))
    = numel (shape mu).
Proof.
  intros Hrandn Hs Hmu Hlogvar std eps.
  assert (shape std = shape logvar) as Hstd by done.
  assert (wf std) as Hstdwf by (unfold wf, std; simpl; by rewrite !length_fmap).
  destruct (Hrandn (stream g (cursor g)) std Hstdwf) as [Heps Hepswf].
  fold eps in Heps, Hepswf.
  assert (length (data std) = numel (shape mu)) as Lstd.
  { unfold std. simpl. rewrite !length_fmap. unfold wf in Hlogvar. congruence. }
  assert (length (data eps) = numel (shape mu)) as Leps.
  { unfold wf in Hepswf. congruence. }
  assert (length (data mu) = numel (shape mu)) as Lmu by done.
  split.
  - unfold reparameterize. fold std. rewrite bind_draw. fold eps.
    rewrite (map2_same_shape fmul eps std), bind_lift_ok by (done || congruence).
    rewrite map2_inplace_same_shape; simpl; [by rewrite Heps, Hstd, Hs|congruence| |done].
    unfold wf in *. simpl. rewrite length_zip_with, !length_fmap, Heps, Hstd.
    rewrite Hs in *. lia.
  - rewrite !length_zip_with. lia.
Qed.

(** X13. Whatever the sizes of [mu], [reparameterize] either raises
    [RuntimeError] or returns a tensor of the sizes of [logvar] after
    exactly one draw of the generator. *)
Theorem reparameterize_outcomes (self : TeacherVAE F) (mu logvar : tensor F)
    (g : generator N) :
  randn_like_shape → wf logvar →
  (∀ e, reparameterize self mu logvar g = Err e → e = RuntimeError)
  ∧ (∀ latent_z g',
       reparameterize self mu logvar g = Ok (latent_z, g') →
       shape latent_z = shape logvar ∧ g' = Generator (stream g) (S (cursor g))).
Proof.
  intros Hrandn Hlogvar.
  set (std := tmap fexp (tmap (fmul fhalf) logvar)).
  assert (wf std) as Hstdwf by (unfold wf, std; simpl; by rewrite !length_fmap).
  destruct (Hrandn (stream g (cursor g)) std Hstdwf) as [Heps Hepswf].
  unfold reparameterize. fold std. rewrite bind_draw.
  rewrite (map2_same_shape fmul _ std), bind_lift_ok by done.
  unfold lift.
  destruct (map2_ fadd _ mu) as [r|e'] eqn:Hadd.
  - split; [done|]. intros z g' [= <- <-]. split; [|done].
    apply map2_inplace_shape in Hadd. by rewrite Hadd.
  - split; [|done]. intros e [= <-]. by eapply map2_inplace_errors.
Qed.

(** X14. [forward] returns on the documented inputs.  With projections
    into [latent_dim] features, [mu], [logvar] and the sampled latent
    tensor have sizes [batch_size, latent_dim]; one draw is taken; the
    loss is the decoder's on [n_layers * n_directions] copies of the
    latent tensor, of sizes [n_layers * n_directions, batch_size,
    latent_dim]. *)
Theorem forward_returns (self : TeacherVAE F)
    (input_seq decoder_seq target_seq : tensor Z) (g : generator N)
    n s n1 s1 n2 s2 latent_dim :
  let enc := encoder self in
  let dec := decoder self in
  let k := n_layers dec * n_directions dec in
  shape input_seq = n :: s → shape decoder_seq = n1 :: s1 → shape target_seq = n2 :: s2 →
  let entries := Tensor s <$> chunks (numel s) n (data input_seq) in
  let hidden := (final_state enc (init_hidden enc) (init_stack enc None) entries).1 in
  length (data hidden)
  = n_layers enc * (n_directions enc * (batch_size enc * hidden_size enc)) →
  0 < n_layers enc →
  linear_to (hidden_to_mu enc) (hidden_size enc * n_directions enc) latent_dim →
  linear_to (hidden_to_logvar enc) (hidden_size enc * n_directions enc) latent_dim →
  randn_like_shape →
  ∃ decoder_loss mu logvar latent_z,
    vae_forward self input_seq decoder_seq target_seq g
    = Ok ((decoder_loss, mu, logvar), Generator (stream g) (S (cursor g)))
    ∧ encoder_train_step enc input_seq = Ok (mu, logvar)
    ∧ shape mu = [batch_size enc; latent_dim]
    ∧ shape logvar = [batch_size enc; latent_dim]
    ∧ reparameterize self mu logvar g
      = Ok (latent_z, Generator (stream g) (S (cursor g)))
    ∧ shape latent_z = [batch_size enc; latent_dim]
    ∧ decoder_train_step dec
        (Tensor [k; batch_size enc; latent_dim] (mjoin (replicate k (data latent_z))))
        decoder_seq target_seq
      = Ok decoder_loss.
Proof.
  intros enc dec k Hs Hds Hts entries hidden Hlen Hlayers Hmu Hlogvar Hrandn.
  destruct (encoder_train_step_spec enc input_seq n s Hs Hlen Hlayers) as [_ Henc].
  fold entries hidden in Henc.
  set (last_layer := Tensor [batch_size enc; hidden_size enc * n_directions enc] _) in Henc.
  assert (wf last_layer) as Hlast.
  { unfold wf, last_layer. simpl. rewrite length_take, length_drop, Hlen. nia. }
  destruct (Hmu last_layer [batch_size enc] eq_refl Hlast) as [Hmus Hmuwf].
  destruct (Hlogvar last_layer [batch_size enc] eq_refl Hlast) as [Hlvs Hlvwf].
  simpl in Hmus, Hlvs.
  destruct (reparameterize_same_shape self (hidden_to_mu enc last_layer)
              (hidden_to_logvar enc last_layer) g Hrandn) as [Hrep Hreplen];
    [congruence|done|done|].
  set (latent_z := Tensor (shape (hidden_to_mu enc last_layer)) _) in Hrep.
  pose proof (decoder_train_step_entries dec
                (Tensor [k; batch_size enc; latent_dim] (mjoin (replicate k (data latent_z))))
                decoder_seq target_seq n1 s1 n2 s2 Hds Hts) as Hdec.
  simpl in Hdec.
  eexists _, (hidden_to_mu enc last_layer), (hidden_to_logvar enc last_layer), latent_z.
  split_and!; [|exact Henc|done|done|exact Hrep|by rewrite <- Hmus|exact Hdec].
  unfold vae_forward, encode. fold enc. rewrite Henc. simpl.
  rewrite bind_lift_ok. unfold mbind at 1, M_bind at 1. rewrite Hrep.
  unfold decode. fold dec k.
  rewrite (repeat_first_matrix k latent_z (batch_size enc) latent_dim);
    [|by rewrite <- Hmus|done].
  simpl. rewrite Hdec. done.
Qed.

(** X15. The latent tensor may come with or without its leading dimension
    of size 1: [decode] and [generate_from_latent] give the same result on
    sizes [batch, latent_dim] and [1, batch, latent_dim]. *)
Theorem latent_leading_dimension (self : TeacherVAE F) (values : list F) b d
    (input_seq target_seq prime_input end_token : tensor Z) generate_len temperature
    (g : generator N) :
  decode self (Tensor [b; d] values) input_seq target_seq
  = decode self (Tensor [1; b; d] values) input_seq target_seq
  ∧ generate_from_latent (decoder self) (Tensor [b; d] values) prime_input end_token
      generate_len temperature g
    = generate_from_latent (decoder self) (Tensor [1; b; d] values) prime_input
        end_token generate_len temperature g.
Proof. split; reflexivity. Qed.

End vae_extras.

(** ** Stripping the special tokens *)

Lemma differs_from_end (x e : Z) :
  map2 (λ a b, negb (a =? b)%Z) (Tensor [] [x]) (Tensor [1] [e]) ≫= tensor_bool
  = Ok (negb (x =? e)%Z).
Proof. reflexivity. Qed.

Lemma takewhile_until (e : Z) (l : list Z) :
  ∃ kept dropped,
    l = kept ++ dropped
    ∧ takewhile (λ x, map2 (λ a b, negb (a =? b)%Z) x (Tensor [1] [e]) ≫= tensor_bool)
        ((λ x, Tensor [] [x]) <$> l)
      = Ok ((λ x, Tensor [] [x]) <$> kept)
    ∧ (e ∉ kept)
    ∧ (dropped = [] ∨ head dropped = Some e).
Proof.
  induction l as [|x l (kept & dropped & -> & Htw & Hnot & Hdrop)].
  { exists [], []. split_and!; [done..|apply not_elem_of_nil|by left]. }
  destruct (decide (x = e)) as [->|Hne].
  - exists [], (e :: kept ++ dropped). split_and!; [done| |apply not_elem_of_nil|by right].
    rewrite fmap_cons. cbn [takewhile]. rewrite differs_from_end.
    by rewrite Z.eqb_refl.
  - exists (x :: kept), dropped. split_and!; [done| | |done].
    + rewrite fmap_cons. cbn [takewhile]. rewrite differs_from_end.
      apply Z.eqb_neq in Hne. rewrite Hne. simpl. by rewrite Htw.
    + rewrite not_elem_of_cons. split; [congruence|done].
Qed.

(** X19. What [generate] yields for a generated row of at least two
    tokens: the row without its first token, cut before the first
    occurrence of the end token (whole when there is none).  Only the
    first token is removed, also when there are several priming tokens. *)
Theorem strip_special_spec (row : list Z) (e : Z) T :
  length row = S (S T) →
  ∃ kept dropped,
    drop 1 row = kept ++ dropped
    ∧ strip_special (Tensor [1] [e]) (Tensor [1; S (S T)] row)
      = Ok ((λ x, Tensor [] [x]) <$> kept)
    ∧ (e ∉ kept)
    ∧ (dropped = [] ∨ head dropped = Some e).
Proof.
  intros Hlen.
  destruct (takewhile_until e (drop 1 row)) as (kept & dropped & Hsplit & Htw & Hnot & Hdrop).
  exists kept, dropped. split_and!; [done| |done|done].
  unfold strip_special.
  assert (slice (Some 1%Z) None (squeeze (Tensor [1; S (S T)] row))
          = Ok (Tensor [S T] (drop 1 row))) as ->.
  { unfold squeeze, slice, slice_bound. simpl.
    replace (Z.to_nat (0 `max` (1 `min` Z.of_nat (S (S T))))) with 1 by lia.
    simpl. rewrite ?Nat.sub_0_r, ?Nat.mul_1_r.
    do 2 f_equal. apply take_ge. rewrite length_drop. lia. }
  change (takewhile
            (λ x, map2 (λ a b, negb (a =? b)%Z) x (Tensor [1] [e]) ≫= tensor_bool)
            (Tensor [] <$> chunks 1 (S T) (drop 1 row))
          = Ok ((λ x, Tensor [] [x]) <$> kept)).
  assert (chunks 1 (S T) (drop 1 row) = (λ x, [x]) <$> drop 1 row) as ->.
  { rewrite <- chunks_one. f_equal. rewrite length_drop. lia. }
  rewrite <- list_fmap_compose. exact Htw.
Qed.

(** ** The further properties on the small instance *)

Lemma toy_linear_to_mu b : linear_to (hidden_to_mu (toy_encoder b)) 2 2.
Proof. by intros t s Hs Hwf. Qed.

Lemma toy_linear_to_logvar b : linear_to (hidden_to_logvar (toy_encoder b)) 2 2.
Proof.
  intros t s Hs Hwf. split; [done|]. unfold wf in *. simpl. by rewrite length_fmap.
Qed.

Lemma generate_from_latent_empty_prime_raises_witness :
  generate_from_latent (toy_decoder 2) (Tensor [1; 2; 1] [0; 0]%Z)
    (Tensor [0] []) (Tensor [1] [3]%Z) 3 1%Z toy_generator
  = Err IndexError.
Proof.
  apply (generate_from_latent_empty_prime_raises (toy_decoder 2)
           (Tensor [1; 2; 1] [0; 0]%Z) (Tensor [0] []) (Tensor [1] [3]%Z) 3 1%Z
           toy_generator 1 2 1);
    [apply toy_linear_layer|reflexivity|reflexivity|lia|left; reflexivity|reflexivity].
Defined.

Lemma generate_from_latent_nothing_to_generate_witness :
  generate_from_latent (toy_decoder 2) (Tensor [1; 2; 1] [0; 0]%Z)
    (Tensor [2] [2; 4]%Z) (Tensor [1] [3]%Z) 0 1%Z toy_generator
  = Ok (Tensor [2; 1; 2] [2; 4; 2; 4]%Z, toy_generator).
Proof.
  apply (generate_from_latent_nothing_to_generate (toy_decoder 2)
           (Tensor [1; 2; 1] [0; 0]%Z) (Tensor [2] [2; 4]%Z) (Tensor [1] [3]%Z) 1%Z
           toy_generator 1 2 1 1);
    [apply toy_linear_layer|reflexivity|reflexivity|lia|left; reflexivity|reflexivity].
Defined.

Lemma generate_from_latent_ignores_end_token_witness :
  generate_from_latent (toy_decoder 2) (Tensor [1; 2; 1] [0; 0]%Z)
    (Tensor [2] [2; 4]%Z) (Tensor [1] [11]%Z) 3 1%Z toy_generator
  = generate_from_latent (toy_decoder 2) (Tensor [1; 2; 1] [0; 0]%Z)
      (Tensor [2] [2; 4]%Z) (Tensor [3] [7; 8; 9]%Z) 3 1%Z toy_generator.
Proof.
  apply (generate_from_latent_ignores_end_token (toy_decoder 2)
           (Tensor [1; 2; 1] [0; 0]%Z) (Tensor [2] [2; 4]%Z)
           (Tensor [1] [11]%Z) (Tensor [3] [7; 8; 9]%Z) 3 1%Z toy_generator 1 2 1);
    [apply toy_linear_layer|reflexivity|reflexivity|lia].
Defined.

Lemma generate_from_latent_ambiguous_end_token_witness :
  generate_from_latent (toy_decoder 1) (Tensor [1; 1; 1] [0]%Z)
    (Tensor [2] [2; 4]%Z) (Tensor [2] [3; 11]%Z) 3 1%Z toy_generator
  = Err RuntimeError.
Proof.
  apply (generate_from_latent_ambiguous_end_token (toy_decoder 1)
           (Tensor [1; 1; 1] [0]%Z) (Tensor [2] [2; 4]%Z) (Tensor [2] [3; 11]%Z)
           3 1%Z toy_generator 1 1 1 2);
    [apply toy_cell_rows|apply toy_multinomial_rows|apply toy_linear_layer
    |reflexivity|reflexivity|left; reflexivity|reflexivity|reflexivity|lia|lia].
Defined.

Lemma generate_from_latent_extends_witness :
  ∃ gen1 g1 gen2 g2 molecules1 molecules2,
    generate_from_latent (toy_decoder 2) (Tensor [1; 2; 1] [0; 0]%Z)
      (Tensor [2] [2; 4]%Z) (Tensor [1] [3]%Z) 2 1%Z toy_generator
    = Ok (gen1, g1)
    ∧ generate_from_latent (toy_decoder 2) (Tensor [1; 2; 1] [0; 0]%Z)
        (Tensor [2] [2; 4]%Z) (Tensor [1] [3]%Z) 3 1%Z toy_generator
      = Ok (gen2, g2)
    ∧ iter gen1 = Ok molecules1 ∧ iter gen2 = Ok molecules2
    ∧ length molecules1 = 2 ∧ length molecules2 = 2
    ∧ ∀ b m1 m2,
        molecules1 !! b = Some m1 → molecules2 !! b = Some m2 →
        data m1 `prefix_of` data m2.
Proof.
  apply (generate_from_latent_extends (toy_decoder 2) (Tensor [1; 2; 1] [0; 0]%Z)
           (Tensor [2] [2; 4]%Z) (Tensor [1] [3]%Z) 2 1%Z toy_generator 2 1).
  exact toy_generation_inputs.
Defined.

Lemma generate_raises_on_documented_inputs_witness :
  generate (toy_vae 2) (Tensor [1; 2; 1] [0; 0]%Z) (Tensor [2] [2; 4]%Z)
    (Tensor [1] [3]%Z) 3 1%Z toy_generator
  = Err TypeError.
Proof.
  apply (generate_raises_on_documented_inputs (toy_vae 2) (Tensor [1; 2; 1] [0; 0]%Z)
           (Tensor [2] [2; 4]%Z) (Tensor [1] [3]%Z) 3 1%Z toy_generator 2 1).
  exact toy_generation_inputs.
Defined.

Lemma reparameterize_outcomes_witness :
  (∀ e, reparameterize (toy_vae 2) (Tensor [2; 2] [1; 2; 3; 4]%Z)
          (Tensor [1; 2] [1; 2]%Z) toy_generator = Err e → e = RuntimeError)
  ∧ (∀ latent_z g',
       reparameterize (toy_vae 2) (Tensor [2; 2] [1; 2; 3; 4]%Z)
         (Tensor [1; 2] [1; 2]%Z) toy_generator = Ok (latent_z, g') →
       shape latent_z = [1; 2] ∧ g' = Generator (stream toy_generator) 1).
Proof.
  apply (reparameterize_outcomes (toy_vae 2) (Tensor [2; 2] [1; 2; 3; 4]%Z)
           (Tensor [1; 2] [1; 2]%Z) toy_generator);
    [apply toy_randn_like_shape|reflexivity].
Defined.

Lemma forward_returns_witness :
  ∃ decoder_loss mu logvar latent_z,
    vae_forward (toy_vae 2) (Tensor [2; 2] [1; 2; 3; 4]%Z)
      (Tensor [3; 2] [1; 2; 3; 4; 5; 6]%Z) (Tensor [2; 2] [1; 2; 3; 4]%Z) toy_generator
    = Ok ((decoder_loss, mu, logvar), Generator (stream toy_generator) 1)
    ∧ encoder_train_step (encoder (toy_vae 2)) (Tensor [2; 2] [1; 2; 3; 4]%Z)
      = Ok (mu, logvar)
    ∧ shape mu = [2; 2]
    ∧ shape logvar = [2; 2]
    ∧ reparameterize (toy_vae 2) mu logvar toy_generator
      = Ok (latent_z, Generator (stream toy_generator) 1)
    ∧ shape latent_z = [2; 2]
    ∧ decoder_train_step (decoder (toy_vae 2))
        (Tensor [2; 2; 2] (mjoin (replicate 2 (data latent_z))))
        (Tensor [3; 2] [1; 2; 3; 4; 5; 6]%Z) (Tensor [2; 2] [1; 2; 3; 4]%Z)
      = Ok decoder_loss.
Proof.
  apply (forward_returns (toy_vae 2) (Tensor [2; 2] [1; 2; 3; 4]%Z)
           (Tensor [3; 2] [1; 2; 3; 4; 5; 6]%Z) (Tensor [2; 2] [1; 2; 3; 4]%Z)
           toy_generator 2 [2] 3 [2] 2 [2] 2);
    [reflexivity|reflexivity|reflexivity|reflexivity|simpl; lia
    |apply toy_linear_to_mu|apply toy_linear_to_logvar|apply toy_randn_like_shape].
Defined.

Lemma strip_special_spec_witness :
  ∃ kept dropped,
    drop 1 [2; 7; 8; 3; 9]%Z = kept ++ dropped
    ∧ strip_special (Tensor [1] [3]%Z) (Tensor [1; 5] [2; 7; 8; 3; 9]%Z)
      = Ok ((λ x, Tensor [] [x]) <$> kept)
    ∧ (3%Z ∉ kept)
    ∧ (dropped = [] ∨ head dropped = Some 3%Z).
Proof.
  apply (strip_special_spec [2; 7; 8; 3; 9]%Z 3%Z 3). reflexivity.
Defined.
